(** * Roblox auto-deploy bot: the deployment state machine

    A shallow embedding of [deploy/src/index.ts].  The script keeps one
    global [state] object, polls GitHub Actions for the newest successful
    workflow run, downloads and unpacks its [place-file] artifact, publishes
    the place to Roblox and records the attempt.

    Modelling choices:
    - run and artifact identifiers are JavaScript numbers holding integers;
      they are [Z] here;
    - the global [state] and the file it is written to form the [World];
      every function of the script is a computation in a small state and
      output monad [M] over it, the output being the console lines printed
      and the requests sent to the outside;
    - the outside (GitHub, the unzip command, Roblox, the clock, the file
      system) answers through a [TickEnv], one per call of [processNewRun];
      an awaited call that rejects is [Throws], caught by the [try]/[catch]
      of the function that made it. *)

From Stdlib Require Import ZArith List String Bool Lia.
From Stdlib Require Import Sorted.
Import ListNotations.
Open Scope Z_scope.

(** ** Data *)

Definition Buffer := list Byte.byte.

(** A workflow run as returned by [listWorkflowRunsForRepo]; only the fields
    the script reads. *)
Record WorkflowRun := mkRun {
  run_id : Z;
  head_branch : option string;
  head_sha : string;
  updated_at : string
}.

Record Artifact := mkArtifact {
  name : string;
  artifact_id : Z;
  size_in_bytes : Z
}.

(** One element of [DeployState.deploymentHistory]. *)
Record DeploymentRecord := mkRecord {
  runId : Z;
  deployedAt : string;
  commitSha : string;
  success : bool;
  error : option string
}.

Record DeployState := mkState {
  lastProcessedRunId : option Z;
  lastDeployedAt : option string;
  deploymentHistory : list DeploymentRecord
}.

(** The value of [let state] before [loadState] runs. *)
Definition initialState : DeployState :=
  {| lastProcessedRunId := None; lastDeployedAt := None; deploymentHistory := [] |}.

(** ** The outside world *)

Inductive Response (A : Type) : Type :=
| Throws (err : string)
| Returns (a : A).
Arguments Throws {A} err.
Arguments Returns {A} a.

(** What [fetch] resolves to: [response.ok], [response.status] and the two
    ways of reading the body. *)
Record HttpResponse := mkHttp {
  ok : bool;
  status : Z;
  text : Response string;
  json : Response string
}.

Record TickEnv := mkEnv {
  (* octokit.rest.actions.listWorkflowRunsForRepo, newest run first *)
  listWorkflowRunsForRepo : Response (list WorkflowRun);
  (* octokit.rest.actions.listWorkflowRunArtifacts, by run id *)
  listWorkflowRunArtifacts : Z -> Response (list Artifact);
  (* octokit.rest.actions.downloadArtifact, by artifact id *)
  downloadArtifactZip : Z -> Response Buffer;
  (* the body of extractPlaceFile's try block: writing the zip, unzip,
     reading place.rbxl ([None] when the file is not there), cleaning up;
     the answer is what this call finds in ./temp, which can hold what an
     earlier call left there *)
  unzipPlace : Buffer -> Response (option Buffer);
  (* fetch(POST .../versions?versionType=Published) *)
  fetchPublish : Buffer -> Response HttpResponse;
  (* new Date().toISOString() *)
  now : string;
  (* writeFileSync(CONFIG.stateFile, ...) *)
  writeFileSync : Response unit
}.

(** Console lines and outgoing requests, in the order the script makes
    them. *)
Inductive Event : Type :=
| LogChecking
| LogNoNewRuns
| ErrFetchingRuns (e : string)
| LogFoundRun (id : Z)
| LogBranch (b : option string)
| LogCommit (sha7 : string)
| LogCompleted (t : string)
| LogNoPlaceArtifact
| LogFoundArtifact (n : string) (size : Z)
| ErrDownloading (e : string)
| LogSkipNoArtifact
| ErrPlaceMissing
| ErrExtracting (e : string)
| LogSkipExtraction
| LogPlaceSize (n : nat)
| LogPublishing
| ErrRobloxApi (st : Z) (errorText : string)
| LogPublished
| LogVersion (result : string)
| ErrPublishing (e : string)
| ErrSavingState (e : string)
| LogDeployOk
| LogDeployErrors
| ReqListRuns
| ReqListArtifacts (run : Z)
| ReqDownloadArtifact (artifact : Z)
| ReqUnzip (zip : Buffer)
| ReqPublish (place : Buffer)
| ReqWriteState (s : DeployState).

(** The global [state] and the content of [CONFIG.stateFile] ([None]: no
    file).  The file holds [JSON.stringify(state)]; it is kept as the state
    it serialises. *)
Record World := mkWorld {
  state : DeployState;
  stateFile : option DeployState
}.

(** ** The monad *)

Definition M (A : Type) : Type := World -> A * World * list Event.

Definition ret {A} (a : A) : M A := fun w => (a, w, []).

Definition bind {A B} (m : M A) (f : A -> M B) : M B :=
  fun w =>
    let '(a, w1, l1) := m w in
    let '(b, w2, l2) := f a w1 in
    (b, w2, l1 ++ l2).

Declare Scope deploy_scope.
Delimit Scope deploy_scope with deploy.
Notation "x <- m ;; k" := (bind m (fun x => k))
  (at level 61, m at next level, right associativity) : deploy_scope.
Notation "m ;; k" := (bind m (fun _ => k))
  (at level 61, right associativity) : deploy_scope.
Open Scope deploy_scope.

Definition emit (e : Event) : M unit := fun w => (tt, w, [e]).

Definition getState : M DeployState := fun w => (state w, w, []).

Definition setState (s : DeployState) : M unit :=
  fun w => (tt, {| state := s; stateFile := stateFile w |}, []).

Definition writeStateFile (s : DeployState) : M unit :=
  fun w => (tt, {| state := state w; stateFile := Some s |}, []).

Definition valueOf {A} (m : M A) (w : World) : A := fst (fst (m w)).
Definition worldOf {A} (m : M A) (w : World) : World := snd (fst (m w)).
Definition eventsOf {A} (m : M A) (w : World) : list Event := snd (m w).

(** ** JavaScript helpers *)

(** [state.lastProcessedRunId && latestRun.id <= state.lastProcessedRunId]:
    [null] and [0] are falsy, every other number is truthy. *)
Definition alreadyProcessed (last : option Z) (id : Z) : bool :=
  match last with
  | None => false
  | Some n => negb (n =? 0) && (id <=? n)
  end.

(** [arr.slice(-n)]: the last [n] elements, the whole array when it is
    shorter. *)
Definition sliceLast {A} (n : nat) (l : list A) : list A :=
  skipn (List.length l - n) l.

(** ** The script *)

Section Script.

Variable env : TickEnv.

(** A write that throws is taken to leave the file as it was.  A write
    that fails after the file was opened cuts it short instead; such a
    file cannot be parsed, and is for the next process a file whose
    reading throws (the [readParse] of [loadState]). *)
Definition saveState : M unit :=
  s <- getState ;;
  emit (ReqWriteState s) ;;
  match writeFileSync env with
  | Returns _ => writeStateFile s
  | Throws e => emit (ErrSavingState e)
  end.

Definition getLatestSuccessfulRun : M (option WorkflowRun) :=
  emit ReqListRuns ;;
  match listWorkflowRunsForRepo env with
  | Throws e => emit (ErrFetchingRuns e) ;; ret None
  | Returns [] => ret None
  | Returns (latestRun :: _) =>
      s <- getState ;;
      if alreadyProcessed (lastProcessedRunId s) (run_id latestRun)
      then ret None
      else ret (Some latestRun)
  end.

Definition downloadArtifact (runId : Z) : M (option Buffer) :=
  emit (ReqListArtifacts runId) ;;
  match listWorkflowRunArtifacts env runId with
  | Throws e => emit (ErrDownloading e) ;; ret None
  | Returns artifacts =>
      match find (fun a => String.eqb (name a) "place-file") artifacts with
      | None => emit LogNoPlaceArtifact ;; ret None
      | Some placeArtifact =>
          emit (LogFoundArtifact (name placeArtifact) (size_in_bytes placeArtifact)) ;;
          emit (ReqDownloadArtifact (artifact_id placeArtifact)) ;;
          match downloadArtifactZip env (artifact_id placeArtifact) with
          | Throws e => emit (ErrDownloading e) ;; ret None
          | Returns artifactData => ret (Some artifactData)
          end
      end
  end.

Definition extractPlaceFile (zipBuffer : Buffer) : M (option Buffer) :=
  emit (ReqUnzip zipBuffer) ;;
  match unzipPlace env zipBuffer with
  | Throws e => emit (ErrExtracting e) ;; ret None
  | Returns None => emit ErrPlaceMissing ;; ret None
  | Returns (Some placeBuffer) => ret (Some placeBuffer)
  end.

Definition publishToRoblox (placeBuffer : Buffer) : M bool :=
  emit LogPublishing ;;
  emit (ReqPublish placeBuffer) ;;
  match fetchPublish env placeBuffer with
  | Throws e => emit (ErrPublishing e) ;; ret false
  | Returns response =>
      if negb (ok response) then
        match text response with
        | Throws e => emit (ErrPublishing e) ;; ret false
        | Returns errorText =>
            emit (ErrRobloxApi (status response) errorText) ;; ret false
        end
      else
        match json response with
        | Throws e => emit (ErrPublishing e) ;; ret false
        | Returns result =>
            emit LogPublished ;; emit (LogVersion result) ;; ret true
        end
  end.

(** The object pushed on [state.deploymentHistory]. *)
Definition historyEntry (run : WorkflowRun) (at_ : string) (success : bool)
  : DeploymentRecord :=
  {| runId := run_id run;
     deployedAt := at_;
     commitSha := head_sha run;
     success := success;
     error := if success then None else Some "Failed to publish to Roblox"%string |}.

Definition processNewRun : M unit :=
  emit LogChecking ;;
  run <- getLatestSuccessfulRun ;;
  match run with
  | None => emit LogNoNewRuns
  | Some run =>
      emit (LogFoundRun (run_id run)) ;;
      emit (LogBranch (head_branch run)) ;;
      emit (LogCommit (substring 0 7 (head_sha run))) ;;
      emit (LogCompleted (updated_at run)) ;;
      artifactBuffer <- downloadArtifact (run_id run) ;;
      match artifactBuffer with
      | None =>
          emit LogSkipNoArtifact ;;
          s <- getState ;;
          setState {| lastProcessedRunId := Some (run_id run);
                      lastDeployedAt := lastDeployedAt s;
                      deploymentHistory := deploymentHistory s |} ;;
          saveState
      | Some artifactBuffer =>
          placeBuffer <- extractPlaceFile artifactBuffer ;;
          match placeBuffer with
          | None =>
              emit LogSkipExtraction ;;
              s <- getState ;;
              setState {| lastProcessedRunId := Some (run_id run);
                          lastDeployedAt := lastDeployedAt s;
                          deploymentHistory := deploymentHistory s |} ;;
              saveState
          | Some placeBuffer =>
              emit (LogPlaceSize (List.length placeBuffer)) ;;
              success <- publishToRoblox placeBuffer ;;
              s <- getState ;;
              let pushed :=
                deploymentHistory s ++ [historyEntry run (now env) success] in
              setState {| lastProcessedRunId := Some (run_id run);
                          lastDeployedAt := Some (now env);
                          deploymentHistory :=
                            if (50 <? List.length pushed)%nat
                            then sliceLast 50 pushed
                            else pushed |} ;;
              saveState ;;
              if success then emit LogDeployOk else emit LogDeployErrors
          end
      end
  end.

End Script.

(** One call of [processNewRun] from its start to its return with nothing
    else running in between, and a run of such calls one after the other.
    The timer can also start a call while another is still waiting: see
    [Calls in flight] below. *)
Definition tick (env : TickEnv) (w : World) : World := worldOf (processNewRun env) w.

Fixpoint runTicks (envs : list TickEnv) (w : World) : World * list Event :=
  match envs with
  | [] => (w, [])
  | env :: rest =>
      let '(w', evs) := runTicks rest (tick env w) in
      (w', eventsOf (processNewRun env) w ++ evs)
  end.

(** ** Observations used by the statements *)

(** The step at which [processNewRun] leaves its pipeline: no candidate
    ([return] at line 236), the two early [return]s after a failed
    download or extraction, or the publish step with its result. *)
Inductive Step : Type :=
| NoCandidate
| StoppedAtFetch (run : WorkflowRun)
| StoppedAtExtract (run : WorkflowRun)
| ReachedPublish (run : WorkflowRun) (success : bool).

Definition stepOf (env : TickEnv) (w : World) : Step :=
  match valueOf (getLatestSuccessfulRun env) w with
  | None => NoCandidate
  | Some run =>
      match valueOf (downloadArtifact env (run_id run)) w with
      | None => StoppedAtFetch run
      | Some zip =>
          match valueOf (extractPlaceFile env zip) w with
          | None => StoppedAtExtract run
          | Some place => ReachedPublish run (valueOf (publishToRoblox env place) w)
          end
      end
  end.

(** The run identifiers on which the pipeline was started, read off the
    requests for a run's artifacts. *)
Definition attempts (evs : list Event) : list Z :=
  flat_map (fun e => match e with ReqListArtifacts r => [r] | _ => [] end) evs.

(** The states written to (or tried to be written to) the state file. *)
Definition saves (evs : list Event) : list DeployState :=
  flat_map (fun e => match e with ReqWriteState s => [s] | _ => [] end) evs.

(** The world after [saveState] ran on in-memory state [s]. *)
Definition saved (env : TickEnv) (s : DeployState) (w : World) : World :=
  {| state := s;
     stateFile := match writeFileSync env with
                  | Returns _ => Some s
                  | Throws _ => stateFile w
                  end |}.

Definition markProcessed (run : WorkflowRun) (s : DeployState) : DeployState :=
  {| lastProcessedRunId := Some (run_id run);
     lastDeployedAt := lastDeployedAt s;
     deploymentHistory := deploymentHistory s |}.

Definition recordAttempt (env : TickEnv) (run : WorkflowRun) (b : bool)
    (s : DeployState) : DeployState :=
  {| lastProcessedRunId := Some (run_id run);
     lastDeployedAt := Some (now env);
     deploymentHistory :=
       sliceLast 50 (deploymentHistory s ++ [historyEntry run (now env) b]) |}.

(** The same answers with another page of workflow runs. *)
Definition withRuns (env : TickEnv) (runs : Response (list WorkflowRun)) : TickEnv :=
  {| listWorkflowRunsForRepo := runs;
     listWorkflowRunArtifacts := listWorkflowRunArtifacts env;
     downloadArtifactZip := downloadArtifactZip env;
     unzipPlace := unzipPlace env;
     fetchPublish := fetchPublish env;
     now := now env;
     writeFileSync := writeFileSync env |}.

(** The page brings nothing newer than run [n]: it is empty, or its newest
    run has an identifier of at most [n]. *)
Definition nothingNew (n : Z) (env : TickEnv) : Prop :=
  match listWorkflowRunsForRepo env with
  | Throws _ => False
  | Returns [] => True
  | Returns (r :: _) => run_id r <= n
  end.

(** The same, also allowing the query to fail. *)
Definition notNewerThan (n : Z) (env : TickEnv) : Prop :=
  match listWorkflowRunsForRepo env with
  | Returns (r :: _) => run_id r <= n
  | _ => True
  end.

(** The history entries pushed over a run of ticks, in the order they were
    pushed. *)
Fixpoint deployments (envs : list TickEnv) (w : World) : list DeploymentRecord :=
  match envs with
  | [] => []
  | env :: rest =>
      match stepOf env w with
      | ReachedPublish run b => [historyEntry run (now env) b]
      | _ => []
      end ++ deployments rest (tick env w)
  end.

(** Every tick of the run published a place successfully. *)
Fixpoint allDeployed (envs : list TickEnv) (w : World) : bool :=
  match envs with
  | [] => true
  | env :: rest =>
      match stepOf env w with
      | ReachedPublish _ true => allDeployed rest (tick env w)
      | _ => false
      end
  end.

(** Every run of the page has a positive identifier. *)
Definition positiveIds (env : TickEnv) : Prop :=
  match listWorkflowRunsForRepo env with
  | Throws _ => True
  | Returns runs => Forall (fun r => 0 < run_id r) runs
  end.

(** ** Sample answers of the outside world *)

Module Sample.

Definition run (i : Z) : WorkflowRun :=
  {| run_id := i;
     head_branch := Some "main"%string;
     head_sha := "3f9c2ab71d04e6b8"%string;
     updated_at := "2024-05-01T12:00:00Z"%string |}.

Definition placeFile : Artifact :=
  {| name := "place-file"%string; artifact_id := 7001; size_in_bytes := 2 |}.

Definition zip : Buffer := [Byte.x50; Byte.x4b].
Definition place : Buffer := [Byte.x3c; Byte.x72; Byte.x6f].

Definition accepted : HttpResponse :=
  {| ok := true; status := 200;
     text := Returns "{}"%string; json := Returns "{}"%string |}.

Definition rejected (errorText : string) : HttpResponse :=
  {| ok := false; status := 403;
     text := Returns errorText; json := Throws "not json"%string |}.

(** Everything works: the run has its artifact, the archive holds the
    place file and Roblox answers with [response]. *)
Definition publishing (runs : list WorkflowRun) (response : HttpResponse)
    (clock : string) : TickEnv :=
  {| listWorkflowRunsForRepo := Returns runs;
     listWorkflowRunArtifacts := fun _ => Returns [placeFile];
     downloadArtifactZip := fun _ => Returns zip;
     unzipPlace := fun _ => Returns (Some place);
     fetchPublish := fun _ => Returns response;
     now := clock;
     writeFileSync := Returns tt |}.

Definition t0 : string := "2024-05-01T12:00:30.000Z"%string.

(** The run has no [place-file] artifact. *)
Definition noArtifact (runs : list WorkflowRun) : TickEnv :=
  {| listWorkflowRunsForRepo := Returns runs;
     listWorkflowRunArtifacts := fun _ => Returns [];
     downloadArtifactZip := fun _ => Throws "404"%string;
     unzipPlace := fun _ => Returns None;
     fetchPublish := fun _ => Throws "unreachable"%string;
     now := t0;
     writeFileSync := Returns tt |}.

(** The archive does not hold [place.rbxl]. *)
Definition noPlaceInZip (runs : list WorkflowRun) : TickEnv :=
  {| listWorkflowRunsForRepo := Returns runs;
     listWorkflowRunArtifacts := fun _ => Returns [placeFile];
     downloadArtifactZip := fun _ => Returns zip;
     unzipPlace := fun _ => Returns None;
     fetchPublish := fun _ => Throws "unreachable"%string;
     now := t0;
     writeFileSync := Returns tt |}.

(** GitHub cannot be reached. *)
Definition offline : TickEnv :=
  withRuns (publishing [] accepted t0) (Throws "ECONNRESET"%string).

Definition fresh : World := {| state := initialState; stateFile := None |}.

(** A world that last processed run [n]. *)
Definition after (n : Z) : World :=
  {| state := {| lastProcessedRunId := Some n;
                 lastDeployedAt := None;
                 deploymentHistory := [] |};
     stateFile := None |}.

(** Sixty ticks, tick [i] finding run [i] as the newest successful one. *)
Definition sixty : list TickEnv :=
  map (fun i => publishing [run (Z.of_nat i)] accepted t0) (seq 1 60).

End Sample.

(** ** The process around the script

    [validateConfig], [loadState], [main] and the two signal handlers.
    They print lines of their own and can end the process, so they live in
    a second monad [P] whose result says whether the process goes on.

    Left out, with what depends on them: [parseInt] on [POLL_INTERVAL] and
    the number printed for the poll interval (a floating point division),
    and the path in [STATE_FILE] (the world has the one state file).  The
    calls the timer makes, which can overlap, and the moment a signal
    arrives are in [Calls in flight] below. *)

Definition Environ := string -> option string.

Inductive ProcEvent : Type :=
| LogStarting
| ErrMissingVariables
| ErrMissingVariable (key : string)
| ErrCreateEnvFile
| LogConfigValidated
| LogLoadedState (last : option Z)
| LogNoPreviousState
| ErrLoadingState (e : string)
| LogMonitoring (owner repo : option string)
| LogPollInterval
| LogTarget (universe place : option string)
| LogBotRunning
| LogShuttingDown
| Script (e : Event)
| Exit (code : Z).

Inductive Outcome (A : Type) : Type :=
| Exits (code : Z)
| Continues (a : A).
Arguments Exits {A} code.
Arguments Continues {A} a.

Definition P (A : Type) : Type := World -> Outcome A * World * list ProcEvent.

Definition retP {A} (a : A) : P A := fun w => (Continues a, w, []).

(** After [process.exit] nothing more runs. *)
Definition bindP {A B} (m : P A) (f : A -> P B) : P B :=
  fun w =>
    let '(o, w1, l1) := m w in
    match o with
    | Exits code => (Exits code, w1, l1)
    | Continues a =>
        let '(b, w2, l2) := f a w1 in
        (b, w2, l1 ++ l2)
    end.

Declare Scope proc_scope.
Delimit Scope proc_scope with proc.
Notation "x <- m ;; k" := (bindP m (fun x => k))
  (at level 61, m at next level, right associativity) : proc_scope.
Notation "m ;; k" := (bindP m (fun _ => k))
  (at level 61, right associativity) : proc_scope.

Definition say (e : ProcEvent) : P unit := fun w => (Continues tt, w, [e]).

Definition sayAll (es : list ProcEvent) : P unit := fun w => (Continues tt, w, es).

Definition exit {A} (code : Z) : P A := fun w => (Exits code, w, [Exit code]).

(** A function of the script run from the process. *)
Definition script {A} (m : M A) : P A :=
  fun w => let '(a, w', evs) := m w in (Continues a, w', map Script evs).

Definition outcomeOfP {A} (m : P A) (w : World) : Outcome A := fst (fst (m w)).
Definition worldOfP {A} (m : P A) (w : World) : World := snd (fst (m w)).
Definition eventsOfP {A} (m : P A) (w : World) : list ProcEvent := snd (m w).

(** [!process.env[key]]: the variable is not set, or set to the empty
    string. *)
Definition unset (v : option string) : bool :=
  match v with
  | None => true
  | Some EmptyString => true
  | Some (String _ _) => false
  end.

Definition required : list string :=
  ["GITHUB_TOKEN"; "GITHUB_OWNER"; "GITHUB_REPO";
   "ROBLOX_API_KEY"; "ROBLOX_UNIVERSE_ID"; "ROBLOX_PLACE_ID"]%string.

Section Process.

Local Open Scope proc_scope.

Definition validateConfig (penv : Environ) : P unit :=
  let missing := filter (fun key => unset (penv key)) required in
  if (0 <? List.length missing)%nat then
    say ErrMissingVariables ;;
    sayAll (map ErrMissingVariable missing) ;;
    say ErrCreateEnvFile ;;
    exit 1
  else
    say LogConfigValidated.

(** [readParse] answers [readFileSync] followed by [JSON.parse] on a file
    that exists: [Throws] when either throws, otherwise the file's content
    becomes [state].  The content is taken to be a state as [saveState]
    writes it: the script assigns whatever [JSON.parse] returns, and a
    file holding other JSON ([null], an object without the fields) gives
    a [state] outside [DeployState], which is not modelled. *)
Definition loadState (readParse : Response unit) : P unit :=
  fun w =>
    match stateFile w with
    | Some s =>
        match readParse with
        | Returns _ =>
            (Continues tt, {| state := s; stateFile := stateFile w |},
             [LogLoadedState (lastProcessedRunId s)])
        | Throws e => (Continues tt, w, [ErrLoadingState e])
        end
    | None => (Continues tt, w, [LogNoPreviousState])
    end.

(** [main], up to and including the line printed after [setInterval] was
    armed. *)
Definition main (penv : Environ) (readParse : Response unit) (first : TickEnv)
  : P unit :=
  say LogStarting ;;
  validateConfig penv ;;
  loadState readParse ;;
  say (LogMonitoring (penv "GITHUB_OWNER"%string) (penv "GITHUB_REPO"%string)) ;;
  say LogPollInterval ;;
  say (LogTarget (penv "ROBLOX_UNIVERSE_ID"%string) (penv "ROBLOX_PLACE_ID"%string)) ;;
  script (processNewRun first) ;;
  say LogBotRunning.

(** The handler of SIGINT and of SIGTERM. *)
Definition onSignal (env : TickEnv) : P unit :=
  say LogShuttingDown ;;
  script (saveState env) ;;
  exit 0.

End Process.

(** A new process on the files the world was left with: [state] starts
    from its initial value. *)
Definition reboot (w : World) : World :=
  {| state := initialState; stateFile := stateFile w |}.

(** The state file, when there is one, holds the state in memory; when
    there is none the state is the initial one.  A process started on such
    a file takes up the state that was in memory. *)
Definition inSync (w : World) : Prop :=
  match stateFile w with
  | Some s => s = state w
  | None => state w = initialState
  end.

(** ** More observations *)

(** The place files sent to Roblox. *)
Definition publishes (evs : list Event) : list Buffer :=
  flat_map (fun e => match e with ReqPublish b => [b] | _ => [] end) evs.

(** The artifacts asked for download. *)
Definition downloads (evs : list Event) : list Z :=
  flat_map (fun e => match e with ReqDownloadArtifact a => [a] | _ => [] end) evs.

(** The events of the script among those of the process. *)
Definition scriptEvents (evs : list ProcEvent) : list Event :=
  flat_map (fun e => match e with Script x => [x] | _ => [] end) evs.

Definition isPlaceFile (a : Artifact) : bool := String.eqb (name a) "place-file".

(** An entry is either a success without reason or a failure with one. *)
Definition wellFormedEntry (r : DeploymentRecord) : Prop :=
  (success r = true /\ error r = None) \/
  (success r = false /\ error r = Some "Failed to publish to Roblox"%string).

(** [lastDeployedAt] is the time of the newest history entry. *)
Definition datedByHistory (s : DeployState) : Prop :=
  lastDeployedAt s = option_map deployedAt (List.last (map Some (deploymentHistory s)) None).

(** Every entry is for a positive run that is not newer than the last
    processed one, and the entries are in increasing order of run. *)
Definition orderedHistory (s : DeployState) : Prop :=
  StronglySorted Z.lt (map runId (deploymentHistory s)) /\
  Forall (fun r => 0 < runId r /\
                   exists n, lastProcessedRunId s = Some n /\ runId r <= n)
         (deploymentHistory s).

(** The number of ticks of a run that reached the publish step. *)
Fixpoint publishCount (envs : list TickEnv) (w : World) : nat :=
  match envs with
  | [] => 0
  | env :: rest =>
      (match stepOf env w with ReachedPublish _ _ => 1 | _ => 0 end
       + publishCount rest (tick env w))%nat
  end.

(** ** Calls in flight

    [setInterval] starts a call of [processNewRun] every poll interval
    whether or not the previous call has returned, and a signal handler
    runs whenever the process is waiting for an answer.  A call reads
    [state] once, in the guard of [getLatestSuccessfulRun], and changes it
    only in the lines after its last answer, which run without waiting;
    in between it asks the services and prints.  So a call is cut in
    parts: up to its guard, the questions it asks, and its last lines. *)

(** Where the questions of a call end. *)
Inductive Stop : Type :=
| NoArtifact
| NoPlace
| Published (success : bool).

Section Parts.

Variable env : TickEnv.

(** Lines 230 to 232. *)
Definition upToGuard : M (option WorkflowRun) :=
  emit LogChecking ;;
  getLatestSuccessfulRun env.

(** Lines 239 to 242. *)
Definition announce (run : WorkflowRun) : M unit :=
  emit (LogFoundRun (run_id run)) ;;
  emit (LogBranch (head_branch run)) ;;
  emit (LogCommit (substring 0 7 (head_sha run))) ;;
  emit (LogCompleted (updated_at run)).

(** Lines 245 to 265 without what they do to [state]. *)
Definition pipeline (run : WorkflowRun) : M Stop :=
  artifactBuffer <- downloadArtifact env (run_id run) ;;
  match artifactBuffer with
  | None => ret NoArtifact
  | Some artifactBuffer =>
      placeBuffer <- extractPlaceFile env artifactBuffer ;;
      match placeBuffer with
      | None => ret NoPlace
      | Some placeBuffer =>
          emit (LogPlaceSize (List.length placeBuffer)) ;;
          success <- publishToRoblox env placeBuffer ;;
          ret (Published success)
      end
  end.

(** Lines 247 to 250, 256 to 259 and 268 to 289: the changes of [state],
    [saveState] and the last line. *)
Definition conclude (run : WorkflowRun) (stop : Stop) : M unit :=
  match stop with
  | NoArtifact =>
      emit LogSkipNoArtifact ;;
      s <- getState ;;
      setState {| lastProcessedRunId := Some (run_id run);
                  lastDeployedAt := lastDeployedAt s;
                  deploymentHistory := deploymentHistory s |} ;;
      saveState env
  | NoPlace =>
      emit LogSkipExtraction ;;
      s <- getState ;;
      setState {| lastProcessedRunId := Some (run_id run);
                  lastDeployedAt := lastDeployedAt s;
                  deploymentHistory := deploymentHistory s |} ;;
      saveState env
  | Published success =>
      s <- getState ;;
      let pushed :=
        deploymentHistory s ++ [historyEntry run (now env) success] in
      setState {| lastProcessedRunId := Some (run_id run);
                  lastDeployedAt := Some (now env);
                  deploymentHistory :=
                    if (50 <? List.length pushed)%nat
                    then sliceLast 50 pushed
                    else pushed |} ;;
      saveState env ;;
      if success then emit LogDeployOk else emit LogDeployErrors
  end.

(** A call until it has its candidate, or has returned for want of one. *)
Definition begin : M (option WorkflowRun) :=
  run <- upToGuard ;;
  match run with
  | None => emit LogNoNewRuns ;; ret None
  | Some run => announce run ;; ret (Some run)
  end.

End Parts.

(** A call that waits for an answer: the answers it will get, its
    candidate, and the lines of its questions it has not come to yet. *)
Record InFlight := mkInFlight {
  answers : TickEnv;
  candidate : WorkflowRun;
  unprinted : list Event
}.

(** What happens next in the process: a call the timer started has its
    page of runs and passes its guard (its two lines before that are put
    here as well); the call at place [k] among those in flight comes
    [lines] further in its questions; that call gets its last answer and
    runs to its return; a signal arrives.  Any order of moves is allowed,
    also those the script cannot produce (the first call, made by [main],
    returns before the timer is armed). *)
Inductive Move : Type :=
| Begin (env : TickEnv)
| Advance (k lines : nat)
| End (k : nat)
| Signal (env : TickEnv).

Record Node := mkNode {
  world : World;
  inFlight : list InFlight;
  printed : list Event;
  exited : option Z
}.

Definition idle (w : World) : Node :=
  {| world := w; inFlight := []; printed := []; exited := None |}.

Definition dropAt {A} (k : nat) (l : list A) : list A :=
  firstn k l ++ skipn (S k) l.

Definition replaceAt {A} (k : nat) (x : A) (l : list A) : list A :=
  firstn k l ++ x :: skipn (S k) l.

(** The request for the run's artifacts leaves with the guard, in the same
    turn; the other lines of the questions come as the answers do.  After
    [process.exit] nothing happens. *)
Definition step (n : Node) (m : Move) : Node :=
  match exited n with
  | Some _ => n
  | None =>
      match m with
      | Begin env =>
          let '(run, w, evs) := begin env (world n) in
          match run with
          | None =>
              {| world := w; inFlight := inFlight n;
                 printed := printed n ++ evs; exited := None |}
          | Some run =>
              let lines := eventsOf (pipeline env run) w in
              {| world := w;
                 inFlight := inFlight n ++
                   [{| answers := env; candidate := run; unprinted := skipn 1 lines |}];
                 printed := printed n ++ evs ++ firstn 1 lines;
                 exited := None |}
          end
      | Advance k lines =>
          match nth_error (inFlight n) k with
          | None => n
          | Some c =>
              {| world := world n;
                 inFlight :=
                   replaceAt k {| answers := answers c; candidate := candidate c;
                                  unprinted := skipn lines (unprinted c) |}
                     (inFlight n);
                 printed := printed n ++ firstn lines (unprinted c);
                 exited := None |}
          end
      | End k =>
          match nth_error (inFlight n) k with
          | None => n
          | Some c =>
              let stop := valueOf (pipeline (answers c) (candidate c)) (world n) in
              let '(_, w, evs) := conclude (answers c) (candidate c) stop (world n) in
              {| world := w; inFlight := dropAt k (inFlight n);
                 printed := printed n ++ unprinted c ++ evs; exited := None |}
          end
      | Signal env =>
          let '(o, w, evs) := onSignal env (world n) in
          {| world := w; inFlight := [];
             printed := printed n ++ scriptEvents evs;
             exited := match o with Exits code => Some code | Continues _ => None end |}
      end
  end.

Definition runMoves (moves : list Move) (n : Node) : Node := fold_left step moves n.

(** Calls that do not overlap: each returns before the next starts. *)
Definition atomically (envs : list TickEnv) : list Move :=
  flat_map (fun env => [Begin env; End 0%nat]) envs.

Definition sequentially (envs : list TickEnv) (w : World) : Node :=
  runMoves (atomically envs) (idle w).

(** Every write of the state file that the moves can lead to succeeds. *)
Definition writesSucceed (m : Move) : Prop :=
  match m with
  | Begin env => writeFileSync env = Returns tt
  | Signal env => writeFileSync env = Returns tt
  | _ => True
  end.

(** File and memory agree, and so will they after any call in flight. *)
Definition settled (n : Node) : Prop :=
  inSync (world n) /\
  Forall (fun c => writeFileSync (answers c) = Returns tt) (inFlight n).

(** The kinds of request, in the order of the pipeline. *)
Inductive RequestKind : Type :=
| ListRuns | ListArtifacts | Download | Unzip | Publish | WriteState.

Definition kinds (evs : list Event) : list RequestKind :=
  flat_map (fun e =>
              match e with
              | ReqListRuns => [ListRuns]
              | ReqListArtifacts _ => [ListArtifacts]
              | ReqDownloadArtifact _ => [Download]
              | ReqUnzip _ => [Unzip]
              | ReqPublish _ => [Publish]
              | ReqWriteState _ => [WriteState]
              | _ => []
              end) evs.

(** All six required variables are set to a string that is not empty. *)
Definition configuredWith (penv : Environ) : Prop :=
  forall key, In key required -> unset (penv key) = false.

Module SampleProcess.

Definition lookup (vars : list (string * string)) : Environ :=
  fun key =>
    match find (fun kv => String.eqb (fst kv) key) vars with
    | Some kv => Some (snd kv)
    | None => None
    end.

Definition configured : Environ :=
  lookup [("GITHUB_TOKEN", "ghp_x"); ("GITHUB_OWNER", "sidd"); ("GITHUB_REPO", "place");
          ("ROBLOX_API_KEY", "key"); ("ROBLOX_UNIVERSE_ID", "11"); ("ROBLOX_PLACE_ID", "22")]%string.

(** [GITHUB_REPO] is set to the empty string, [ROBLOX_API_KEY] is not
    set. *)
Definition incomplete : Environ :=
  lookup [("GITHUB_TOKEN", "ghp_x"); ("GITHUB_OWNER", "sidd"); ("GITHUB_REPO", "");
          ("ROBLOX_UNIVERSE_ID", "11"); ("ROBLOX_PLACE_ID", "22")]%string.

(** Everything works but the state file cannot be written. *)
Definition readOnlyDisk (runs : list WorkflowRun) : TickEnv :=
  {| listWorkflowRunsForRepo := Returns runs;
     listWorkflowRunArtifacts := fun _ => Returns [Sample.placeFile];
     downloadArtifactZip := fun _ => Returns Sample.zip;
     unzipPlace := fun _ => Returns (Some Sample.place);
     fetchPublish := fun _ => Returns Sample.accepted;
     now := Sample.t0;
     writeFileSync := Throws "EROFS"%string |}.

(** The run has a log archive, then two [place-file] artifacts. *)
Definition twoPlaceFiles : TickEnv :=
  {| listWorkflowRunsForRepo := Returns [Sample.run 5];
     listWorkflowRunArtifacts := fun _ =>
       Returns [{| name := "logs"%string; artifact_id := 1; size_in_bytes := 9 |};
                {| name := "place-file"%string; artifact_id := 2; size_in_bytes := 2 |};
                {| name := "place-file"%string; artifact_id := 3; size_in_bytes := 2 |}];
     downloadArtifactZip := fun a => if a =? 2 then Returns Sample.zip else Throws "404"%string;
     unzipPlace := fun _ => Returns (Some Sample.place);
     fetchPublish := fun _ => Returns Sample.accepted;
     now := Sample.t0;
     writeFileSync := Returns tt |}.

(** Roblox answers [ok] with a body that is not JSON. *)
Definition okWithoutJson : HttpResponse :=
  {| ok := true; status := 200;
     text := Returns "OK"%string; json := Throws "Unexpected token O"%string |}.

End SampleProcess.

(** * Proofs *)

Ltac unfold_script :=
  unfold tick, stepOf, worldOf, valueOf, eventsOf, processNewRun,
    getLatestSuccessfulRun, downloadArtifact, extractPlaceFile,
    publishToRoblox, saveState, bind, emit, ret, getState, setState,
    writeStateFile, saved, markProcessed, recordAttempt in *.

(** Case analysis on every answer of the outside world the goal waits for. *)
Ltac split_on t := destruct t eqn:?; simpl.

Ltac split_answers :=
  simpl;
  repeat match goal with
         | |- context [match listWorkflowRunsForRepo ?e with _ => _ end] =>
             split_on (listWorkflowRunsForRepo e)
         | |- context [match ?l with [] => _ | _ :: _ => _ end] =>
             is_var l; split_on l
         | |- context [alreadyProcessed ?a ?b] =>
             split_on (alreadyProcessed a b)
         | |- context [match listWorkflowRunArtifacts ?e ?r with _ => _ end] =>
             split_on (listWorkflowRunArtifacts e r)
         | |- context [match find ?f ?l with _ => _ end] =>
             split_on (find f l)
         | |- context [match downloadArtifactZip ?e ?a with _ => _ end] =>
             split_on (downloadArtifactZip e a)
         | |- context [match unzipPlace ?e ?z with _ => _ end] =>
             split_on (unzipPlace e z)
         | |- context [match ?o with Some _ => _ | None => _ end] =>
             is_var o; split_on o
         | |- context [match fetchPublish ?e ?b with _ => _ end] =>
             split_on (fetchPublish e b)
         | |- context [ok ?r] => split_on (ok r)
         | |- context [match text ?r with _ => _ end] => split_on (text r)
         | |- context [match json ?r with _ => _ end] => split_on (json r)
         | |- context [match writeFileSync ?e with _ => _ end] =>
             split_on (writeFileSync e)
         end.

Lemma sliceLast_short {A} (n : nat) (l : list A) :
  (List.length l <= n)%nat -> sliceLast n l = l.
Proof.
  intros H. unfold sliceLast.
  replace (List.length l - n)%nat with 0%nat by lia. reflexivity.
Qed.

Lemma sliceLast_length {A} (n : nat) (l : list A) :
  List.length (sliceLast n l) = Nat.min n (List.length l).
Proof. unfold sliceLast. rewrite length_skipn. lia. Qed.

(** The guarded truncation of the script is [slice(-50)] in both branches. *)
Lemma truncate_guard {A} (l : list A) :
  (if (50 <? List.length l)%nat then sliceLast 50 l else l) = sliceLast 50 l.
Proof.
  destruct (Nat.ltb_spec 50 (List.length l)); [reflexivity|].
  symmetry. apply sliceLast_short. lia.
Qed.

(** What one call does to the world, by the step that ended it. *)
Lemma tick_by_step (env : TickEnv) (w : World) :
  tick env w =
  match stepOf env w with
  | NoCandidate => w
  | StoppedAtFetch run => saved env (markProcessed run (state w)) w
  | StoppedAtExtract run => saved env (markProcessed run (state w)) w
  | ReachedPublish run b => saved env (recordAttempt env run b (state w)) w
  end.
Proof.
  destruct w as [s f].
  unfold_script. simpl.
  split_answers; try reflexivity; rewrite ?truncate_guard; try reflexivity.
Qed.

Lemma no_candidate (env : TickEnv) (w : World) :
  valueOf (getLatestSuccessfulRun env) w = None ->
  tick env w = w /\ attempts (eventsOf (processNewRun env) w) = [] /\
  saves (eventsOf (processNewRun env) w) = [].
Proof.
  destruct w as [s f]. unfold_script. revert env.
  intros env. split_answers; intros H; try discriminate; auto.
Qed.

(** The pipeline is started on the candidate and on nothing else. *)
Lemma attempts_candidate (env : TickEnv) (w : World) :
  attempts (eventsOf (processNewRun env) w) =
  match valueOf (getLatestSuccessfulRun env) w with
  | None => []
  | Some run => [run_id run]
  end.
Proof.
  destruct w as [s f]. unfold_script.
  split_answers; reflexivity.
Qed.

(** [saveState] is called exactly once whenever there was a candidate, and
    it is handed the state the call ends with. *)
Lemma saves_candidate (env : TickEnv) (w : World) :
  saves (eventsOf (processNewRun env) w) =
  match valueOf (getLatestSuccessfulRun env) w with
  | None => []
  | Some _ => [state (tick env w)]
  end.
Proof.
  destruct w as [s f]. unfold_script.
  split_answers; reflexivity.
Qed.

(** ** List facts about [slice(-n)] *)

Lemma sliceLast_snoc {A} (n : nat) (l : list A) (x : A) :
  sliceLast (S n) (l ++ [x]) = sliceLast n l ++ [x].
Proof.
  unfold sliceLast. rewrite length_app. simpl.
  replace (List.length l + 1 - S n)%nat with (List.length l - n)%nat by lia.
  rewrite skipn_app.
  replace (List.length l - n - List.length l)%nat with 0%nat by lia.
  reflexivity.
Qed.

Lemma sliceLast_absorb {A} (n : nat) (l m : list A) :
  sliceLast n (sliceLast n l ++ m) = sliceLast n (l ++ m).
Proof.
  destruct (Nat.le_gt_cases (List.length l) n) as [Hle|Hgt].
  - rewrite (sliceLast_short n l) by assumption. reflexivity.
  - unfold sliceLast.
    rewrite !length_app, length_skipn.
    replace (List.length l - (List.length l - n) + List.length m - n)%nat
      with (List.length m) by lia.
    replace (List.length l + List.length m - n)%nat
      with (List.length m + (List.length l - n))%nat by lia.
    rewrite <- skipn_skipn. f_equal.
    rewrite skipn_app.
    replace (List.length l - n - List.length l)%nat with 0%nat by lia.
    reflexivity.
Qed.

Lemma sliceLast_app_long {A} (n : nat) (l m : list A) :
  (n <= List.length m)%nat -> sliceLast n (l ++ m) = sliceLast n m.
Proof.
  intros H. unfold sliceLast. rewrite length_app, skipn_app.
  replace (List.length l + List.length m - n)%nat
    with (List.length l + (List.length m - n))%nat by lia.
  rewrite skipn_all2 by lia. simpl. f_equal. lia.
Qed.

(** ** Runs of ticks *)

Lemma runTicks_world_cons (env : TickEnv) (rest : list TickEnv) (w : World) :
  fst (runTicks (env :: rest) w) = fst (runTicks rest (tick env w)).
Proof. simpl. destruct (runTicks rest (tick env w)). reflexivity. Qed.

Lemma runTicks_events_cons (env : TickEnv) (rest : list TickEnv) (w : World) :
  snd (runTicks (env :: rest) w) =
  eventsOf (processNewRun env) w ++ snd (runTicks rest (tick env w)).
Proof. simpl. destruct (runTicks rest (tick env w)). reflexivity. Qed.

Lemma attempts_app (a b : list Event) : attempts (a ++ b) = attempts a ++ attempts b.
Proof. unfold attempts. apply flat_map_app. Qed.

(** A candidate passed the guard of [getLatestSuccessfulRun]. *)
Lemma candidate_passed_guard (env : TickEnv) (w : World) (run : WorkflowRun) :
  valueOf (getLatestSuccessfulRun env) w = Some run ->
  (exists rest, listWorkflowRunsForRepo env = Returns (run :: rest)) /\
  alreadyProcessed (lastProcessedRunId (state w)) (run_id run) = false.
Proof.
  destruct w as [s f]. unfold_script.
  split_answers; intros H; try discriminate;
    injection H as <-; (split; [eexists; reflexivity|congruence]).
Qed.

Lemma candidate_marked (env : TickEnv) (w : World) (run : WorkflowRun) :
  valueOf (getLatestSuccessfulRun env) w = Some run ->
  lastProcessedRunId (state (tick env w)) = Some (run_id run).
Proof.
  intros H. rewrite tick_by_step. unfold stepOf. rewrite H.
  destruct (valueOf (downloadArtifact env (run_id run)) w); [|reflexivity].
  destruct (valueOf (extractPlaceFile env b) w); reflexivity.
Qed.

Lemma stale_page_no_candidate (env : TickEnv) (w : World) (n : Z) :
  lastProcessedRunId (state w) = Some n -> n <> 0 -> notNewerThan n env ->
  valueOf (getLatestSuccessfulRun env) w = None.
Proof.
  destruct w as [s f]. unfold notNewerThan. unfold_script. simpl.
  intros Hlast Hn Hold.
  destruct (listWorkflowRunsForRepo env) as [e|[|r rest]]; simpl; try reflexivity.
  rewrite Hlast. unfold alreadyProcessed.
  destruct (Z.eqb_spec n 0); [contradiction|].
  destruct (Z.leb_spec (run_id r) n); [reflexivity|lia].
Qed.

(** The history after one call. *)
Lemma tick_history (env : TickEnv) (w : World) :
  deploymentHistory (state (tick env w)) =
  match stepOf env w with
  | ReachedPublish run b =>
      sliceLast 50 (deploymentHistory (state w) ++ [historyEntry run (now env) b])
  | _ => deploymentHistory (state w)
  end.
Proof. rewrite tick_by_step. destruct (stepOf env w); reflexivity. Qed.

(** ** The steps can all be reached *)

Example step_no_candidate :
  stepOf (Sample.publishing [Sample.run 10] Sample.accepted Sample.t0) (Sample.after 10)
  = NoCandidate.
Proof. reflexivity. Qed.

Example step_stopped_at_fetch :
  stepOf (Sample.noArtifact [Sample.run 7]) Sample.fresh = StoppedAtFetch (Sample.run 7).
Proof. reflexivity. Qed.

Example step_stopped_at_extract :
  stepOf (Sample.noPlaceInZip [Sample.run 7]) Sample.fresh
  = StoppedAtExtract (Sample.run 7).
Proof. reflexivity. Qed.

Example step_published :
  stepOf (Sample.publishing [Sample.run 7] Sample.accepted Sample.t0) Sample.fresh
  = ReachedPublish (Sample.run 7) true.
Proof. reflexivity. Qed.

Example step_publish_rejected :
  stepOf (Sample.publishing [Sample.run 7] (Sample.rejected "denied") Sample.t0) Sample.fresh
  = ReachedPublish (Sample.run 7) false.
Proof. reflexivity. Qed.

(** ** History entries (C1, C3) *)

(** C1, as the specification states it, fails: run #7 has no [place-file]
    artifact, the attempt ends at the artifact step, run #7 is marked as
    processed, and the history is still empty: no record, and no
    "no artifact" reason, was appended. *)
Lemma no_artifact_appends_no_record :
  stepOf (Sample.noArtifact [Sample.run 7]) Sample.fresh = StoppedAtFetch (Sample.run 7) /\
  lastProcessedRunId (state (tick (Sample.noArtifact [Sample.run 7]) Sample.fresh)) = Some 7 /\
  deploymentHistory (state (tick (Sample.noArtifact [Sample.run 7]) Sample.fresh)) = [] /\
  ~ (exists r,
       In r (deploymentHistory (state (tick (Sample.noArtifact [Sample.run 7]) Sample.fresh))) /\
       error r = Some "no artifact"%string).
Proof.
  repeat split; try reflexivity.
  intros [r [Hin _]]. exact Hin.
Qed.

(** C1, amended: a history entry is appended exactly when the attempt
    reaches the publish step.  It is then the last entry of the history
    and carries the run, the time, the commit, the outcome and, for a
    failed publish, the fixed reason "Failed to publish to Roblox".  An
    attempt that ends at the artifact or the extraction step, like a tick
    without candidate, leaves the history as it was. *)
Theorem history_entry_only_when_published (env : TickEnv) (w : World) :
  match stepOf env w with
  | NoCandidate =>
      deploymentHistory (state (tick env w)) = deploymentHistory (state w)
  | StoppedAtFetch _ =>
      deploymentHistory (state (tick env w)) = deploymentHistory (state w)
  | StoppedAtExtract _ =>
      deploymentHistory (state (tick env w)) = deploymentHistory (state w)
  | ReachedPublish run b =>
      deploymentHistory (state (tick env w)) =
      sliceLast 49 (deploymentHistory (state w)) ++
      [{| runId := run_id run;
          deployedAt := now env;
          commitSha := head_sha run;
          success := b;
          error := if b then None else Some "Failed to publish to Roblox"%string |}]
  end.
Proof.
  rewrite tick_history.
  destruct (stepOf env w); try reflexivity.
  apply sliceLast_snoc.
Qed.

(** C3, as the specification states it, fails: Roblox rejects the place
    with the error text "quota exceeded"; the entry recorded for run #10
    has the reason "Failed to publish to Roblox", not the error of the
    response. *)
Lemma rejection_reason_is_not_the_response :
  fetchPublish
    (Sample.publishing [Sample.run 10] (Sample.rejected "quota exceeded") Sample.t0)
    Sample.place
  = Returns (Sample.rejected "quota exceeded") /\
  map (fun r => (runId r, success r, error r))
    (deploymentHistory (state (tick
       (Sample.publishing [Sample.run 10] (Sample.rejected "quota exceeded") Sample.t0)
       Sample.fresh)))
  = [(10, false, Some "Failed to publish to Roblox"%string)] /\
  map error
    (deploymentHistory (state (tick
       (Sample.publishing [Sample.run 10] (Sample.rejected "quota exceeded") Sample.t0)
       Sample.fresh)))
  <> [Some "quota exceeded"%string].
Proof.
  repeat split; try reflexivity.
  vm_compute. discriminate.
Qed.

(** C3, amended: when Roblox answers the publish request with a response
    that is not [ok], the entry appended for the run has [success = false]
    and the fixed reason "Failed to publish to Roblox", whatever the
    response's error text is; that text only goes to the console. *)
Theorem rejected_publish_record (env : TickEnv) (w : World) (run : WorkflowRun)
    (zip place : Buffer) (response : HttpResponse) (errorText : string) :
  valueOf (getLatestSuccessfulRun env) w = Some run ->
  valueOf (downloadArtifact env (run_id run)) w = Some zip ->
  valueOf (extractPlaceFile env zip) w = Some place ->
  fetchPublish env place = Returns response ->
  ok response = false ->
  text response = Returns errorText ->
  deploymentHistory (state (tick env w)) =
    sliceLast 49 (deploymentHistory (state w)) ++
    [{| runId := run_id run;
        deployedAt := now env;
        commitSha := head_sha run;
        success := false;
        error := Some "Failed to publish to Roblox"%string |}] /\
  In (ErrRobloxApi (status response) errorText) (eventsOf (processNewRun env) w).
Proof.
  intros Hrun Hzip Hplace Hfetch Hok Htext.
  assert (Hpub : valueOf (publishToRoblox env place) w = false).
  { unfold valueOf, publishToRoblox, bind, emit, ret. simpl.
    rewrite Hfetch, Hok. simpl. rewrite Htext. reflexivity. }
  split.
  - rewrite tick_history. unfold stepOf. rewrite Hrun, Hzip, Hplace, Hpub.
    apply sliceLast_snoc.
  - destruct w as [s f]. revert Hrun Hzip Hplace. unfold_script. simpl.
    destruct (listWorkflowRunsForRepo env) as [e|[|r rest]]; simpl;
      try discriminate.
    destruct (alreadyProcessed (lastProcessedRunId s) (run_id r)); simpl;
      try discriminate.
    intros Hrun. injection Hrun as ->.
    destruct (listWorkflowRunArtifacts env (run_id run)) as [e|arts]; simpl;
      try discriminate.
    destruct (find _ arts) as [a|]; simpl; try discriminate.
    destruct (downloadArtifactZip env (artifact_id a)) as [e|data]; simpl;
      try discriminate.
    intros Hzip. injection Hzip as ->.
    destruct (unzipPlace env zip) as [e|[p|]]; simpl; try discriminate.
    intros Hplace. injection Hplace as ->.
    rewrite Hfetch. simpl. rewrite Hok. simpl. rewrite Htext. simpl.
    destruct (writeFileSync env); simpl; auto 20.
Qed.

Lemma rejected_publish_record_witness :
  valueOf (getLatestSuccessfulRun
             (Sample.publishing [Sample.run 10] (Sample.rejected "quota exceeded") Sample.t0))
    Sample.fresh = Some (Sample.run 10) /\
  ok (Sample.rejected "quota exceeded") = false /\
  deploymentHistory (state (tick
       (Sample.publishing [Sample.run 10] (Sample.rejected "quota exceeded") Sample.t0)
       Sample.fresh)) =
    sliceLast 49 (deploymentHistory (state Sample.fresh)) ++
    [{| runId := 10;
        deployedAt := Sample.t0;
        commitSha := head_sha (Sample.run 10);
        success := false;
        error := Some "Failed to publish to Roblox"%string |}] /\
  In (ErrRobloxApi 403 "quota exceeded")
     (eventsOf (processNewRun
        (Sample.publishing [Sample.run 10] (Sample.rejected "quota exceeded") Sample.t0))
        Sample.fresh).
Proof.
  split; [reflexivity|]. split; [reflexivity|].
  apply (rejected_publish_record
           (Sample.publishing [Sample.run 10] (Sample.rejected "quota exceeded") Sample.t0)
           Sample.fresh (Sample.run 10) Sample.zip Sample.place
           (Sample.rejected "quota exceeded") "quota exceeded"%string);
    reflexivity.
Defined.

(** ** The time of the last deployment (C9) *)

(** C9: [lastDeployedAt] is set to the current time by every attempt that
    reaches the publish step, whether the publish succeeds or fails; an
    attempt that ends at the artifact or the extraction step leaves
    [lastDeployedAt] and the history unchanged. *)
Theorem lastDeployedAt_only_when_published (env : TickEnv) (w : World) :
  match stepOf env w with
  | NoCandidate => tick env w = w
  | StoppedAtFetch _ =>
      lastDeployedAt (state (tick env w)) = lastDeployedAt (state w) /\
      deploymentHistory (state (tick env w)) = deploymentHistory (state w)
  | StoppedAtExtract _ =>
      lastDeployedAt (state (tick env w)) = lastDeployedAt (state w) /\
      deploymentHistory (state (tick env w)) = deploymentHistory (state w)
  | ReachedPublish _ true =>
      lastDeployedAt (state (tick env w)) = Some (now env)
  | ReachedPublish _ false =>
      lastDeployedAt (state (tick env w)) = Some (now env)
  end.
Proof.
  rewrite tick_by_step.
  destruct (stepOf env w) as [| | |run [|]]; simpl; auto.
Qed.

(** ** The guard of [getLatestSuccessfulRun] (C10, C4, C5) *)

(** C10: the guard holds a run back only when [lastProcessedRunId] is set
    and not zero (and the run is not newer); with [lastProcessedRunId = 0]
    the newest run of the page is returned as candidate whatever its
    identifier, and the pipeline is started on it. *)
Theorem zero_does_not_guard (env : TickEnv) (w : World) (r : WorkflowRun)
    (older : list WorkflowRun) :
  lastProcessedRunId (state w) = Some 0 ->
  listWorkflowRunsForRepo env = Returns (r :: older) ->
  valueOf (getLatestSuccessfulRun env) w = Some r /\
  attempts (eventsOf (processNewRun env) w) = [run_id r] /\
  (forall last id,
      alreadyProcessed last id = true <->
      exists n, last = Some n /\ n <> 0 /\ id <= n).
Proof.
  intros Hlast Hruns.
  assert (Hcand : valueOf (getLatestSuccessfulRun env) w = Some r).
  { destruct w as [s f]. unfold_script. simpl in *.
    rewrite Hruns. simpl. rewrite Hlast. reflexivity. }
  split; [exact Hcand|]. split.
  - rewrite attempts_candidate, Hcand. reflexivity.
  - intros last id. unfold alreadyProcessed. split.
    + destruct last as [n|]; [|discriminate].
      intros H. apply andb_true_iff in H as [Hn Hle].
      exists n. repeat split.
      * destruct (Z.eqb_spec n 0); [discriminate|assumption].
      * apply Z.leb_le. exact Hle.
    + intros [n [-> [Hn Hle]]].
      apply andb_true_iff. split.
      * destruct (Z.eqb_spec n 0); [contradiction|reflexivity].
      * apply Z.leb_le. exact Hle.
Qed.

Lemma zero_does_not_guard_witness :
  lastProcessedRunId (state (Sample.after 0)) = Some 0 /\
  valueOf (getLatestSuccessfulRun
             (Sample.publishing [Sample.run (-3); Sample.run (-4)] Sample.accepted Sample.t0))
    (Sample.after 0) = Some (Sample.run (-3)) /\
  attempts (eventsOf (processNewRun
             (Sample.publishing [Sample.run (-3); Sample.run (-4)] Sample.accepted Sample.t0))
    (Sample.after 0)) = [-3].
Proof.
  split; [reflexivity|].
  destruct (zero_does_not_guard
              (Sample.publishing [Sample.run (-3); Sample.run (-4)] Sample.accepted Sample.t0)
              (Sample.after 0) (Sample.run (-3)) [Sample.run (-4)])
    as [Hcand [Hatt _]]; try reflexivity.
  split; [exact Hcand|exact Hatt].
Defined.

(** C4: with [lastProcessedRunId] set to a value other than zero, a tick
    whose page of runs is empty or has a newest run that is not newer than
    [lastProcessedRunId] only prints that there is nothing new: the state
    and the state file are untouched, nothing is attempted or saved, and
    calling again, any number of times, changes nothing either. *)
Theorem no_new_build_is_idempotent (env : TickEnv) (w : World) (n : Z) :
  lastProcessedRunId (state w) = Some n ->
  n <> 0 ->
  nothingNew n env ->
  processNewRun env w = (tt, w, [LogChecking; ReqListRuns; LogNoNewRuns]) /\
  processNewRun env (tick env w) = processNewRun env w /\
  (forall k, fst (runTicks (repeat env k) w) = w).
Proof.
  intros Hlast Hn Hnew.
  assert (Hone : processNewRun env w = (tt, w, [LogChecking; ReqListRuns; LogNoNewRuns])).
  { destruct w as [s f]. unfold nothingNew in Hnew. unfold_script. simpl in *.
    destruct (listWorkflowRunsForRepo env) as [e|[|r rest]]; simpl;
      [contradiction|reflexivity|].
    rewrite Hlast. unfold alreadyProcessed.
    destruct (Z.eqb_spec n 0); [contradiction|].
    destruct (Z.leb_spec (run_id r) n); [reflexivity|lia]. }
  assert (Htick : tick env w = w).
  { unfold tick, worldOf. rewrite Hone. reflexivity. }
  split; [exact Hone|]. split.
  - rewrite Htick. reflexivity.
  - induction k as [|k IH]; [reflexivity|].
    simpl repeat. rewrite runTicks_world_cons, Htick. exact IH.
Qed.

Lemma no_new_build_is_idempotent_witness :
  lastProcessedRunId (state (Sample.after 10)) = Some 10 /\
  10 <> 0 /\
  nothingNew 10 (Sample.publishing [Sample.run 10; Sample.run 9] Sample.accepted Sample.t0) /\
  processNewRun (Sample.publishing [Sample.run 10; Sample.run 9] Sample.accepted Sample.t0)
    (Sample.after 10)
  = (tt, Sample.after 10, [LogChecking; ReqListRuns; LogNoNewRuns]) /\
  processNewRun (Sample.publishing [Sample.run 10; Sample.run 9] Sample.accepted Sample.t0)
    (tick (Sample.publishing [Sample.run 10; Sample.run 9] Sample.accepted Sample.t0)
       (Sample.after 10))
  = processNewRun (Sample.publishing [Sample.run 10; Sample.run 9] Sample.accepted Sample.t0)
      (Sample.after 10) /\
  fst (runTicks
         (repeat (Sample.publishing [Sample.run 10; Sample.run 9] Sample.accepted Sample.t0) 3)
         (Sample.after 10))
  = Sample.after 10.
Proof.
  split; [reflexivity|]. split; [lia|]. split; [unfold nothingNew; simpl; lia|].
  destruct (no_new_build_is_idempotent
              (Sample.publishing [Sample.run 10; Sample.run 9] Sample.accepted Sample.t0)
              (Sample.after 10) 10) as [Hone [Htwice Hmany]];
    [reflexivity|lia|unfold nothingNew; simpl; lia|].
  exact (conj Hone (conj Htwice (Hmany 3%nat))).
Defined.

(** C5, as the specification states it, fails in its scenario: GitHub
    cannot be reached on tick 1 and returns run #42 on tick 2, but run #42
    has no [place-file] artifact; after tick 2 [lastProcessedRunId] is 42
    and the history has no entry, not one. *)
Lemma retried_build_without_artifact_has_no_record :
  listWorkflowRunsForRepo Sample.offline = Throws "ECONNRESET"%string /\
  listWorkflowRunsForRepo (Sample.noArtifact [Sample.run 42]) = Returns [Sample.run 42] /\
  lastProcessedRunId
    (state (fst (runTicks [Sample.offline; Sample.noArtifact [Sample.run 42]] Sample.fresh)))
  = Some 42 /\
  List.length (deploymentHistory
    (state (fst (runTicks [Sample.offline; Sample.noArtifact [Sample.run 42]] Sample.fresh))))
  = 0%nat /\
  List.length (deploymentHistory
    (state (fst (runTicks [Sample.offline; Sample.noArtifact [Sample.run 42]] Sample.fresh))))
  <> 1%nat.
Proof. repeat split; try reflexivity. vm_compute. discriminate. Qed.

(** C5, amended: when the query for workflow runs throws, the tick prints
    the error and that there is nothing new, and changes neither the state
    nor the state file, so the build is found again on the next tick.  From
    the initial state, a tick whose query throws followed by a tick that
    finds run #42 ends with [lastProcessedRunId = 42]; the history then has
    exactly one entry when the attempt on #42 reached the publish step, and
    none when it ended at the artifact or the extraction step. *)
Theorem discovery_failure_changes_nothing (env1 env2 : TickEnv) (w : World)
    (e : string) (r : WorkflowRun) (older : list WorkflowRun) :
  listWorkflowRunsForRepo env1 = Throws e ->
  processNewRun env1 w
  = (tt, w, [LogChecking; ReqListRuns; ErrFetchingRuns e; LogNoNewRuns]) /\
  (state w = initialState ->
   listWorkflowRunsForRepo env2 = Returns (r :: older) ->
   run_id r = 42 ->
   attempts (snd (runTicks [env1; env2] w)) = [42] /\
   lastProcessedRunId (state (fst (runTicks [env1; env2] w))) = Some 42 /\
   List.length (deploymentHistory (state (fst (runTicks [env1; env2] w)))) =
     match stepOf env2 w with
     | ReachedPublish _ _ => 1%nat
     | _ => 0%nat
     end).
Proof.
  intros Hthrow.
  assert (Hone : processNewRun env1 w
                 = (tt, w, [LogChecking; ReqListRuns; ErrFetchingRuns e; LogNoNewRuns])).
  { destruct w as [s f]. unfold_script. simpl. rewrite Hthrow. reflexivity. }
  split; [exact Hone|].
  intros Hinit Hruns Hid.
  assert (Htick : tick env1 w = w) by (unfold tick, worldOf; rewrite Hone; reflexivity).
  assert (Hcand : valueOf (getLatestSuccessfulRun env2) w = Some r).
  { destruct w as [s f]. simpl in Hinit. subst s. unfold_script. simpl.
    rewrite Hruns. reflexivity. }
  assert (Hev : eventsOf (processNewRun env1) w
                = [LogChecking; ReqListRuns; ErrFetchingRuns e; LogNoNewRuns])
    by (unfold eventsOf; rewrite Hone; reflexivity).
  assert (Hw : fst (runTicks [env1; env2] w) = tick env2 w)
    by (rewrite !runTicks_world_cons, Htick; reflexivity).
  assert (He : attempts (snd (runTicks [env1; env2] w)) = [42]).
  { rewrite !runTicks_events_cons, Htick, Hev, !attempts_app, attempts_candidate, Hcand, Hid.
    reflexivity. }
  rewrite Hw, He, (candidate_marked env2 w r Hcand), Hid.
  repeat split.
  rewrite tick_by_step.
  destruct (stepOf env2 w); simpl; rewrite Hinit; reflexivity.
Qed.

Lemma discovery_failure_changes_nothing_witness :
  listWorkflowRunsForRepo Sample.offline = Throws "ECONNRESET"%string /\
  state Sample.fresh = initialState /\
  processNewRun Sample.offline Sample.fresh
  = (tt, Sample.fresh,
     [LogChecking; ReqListRuns; ErrFetchingRuns "ECONNRESET"; LogNoNewRuns]) /\
  attempts (snd (runTicks
     [Sample.offline; Sample.publishing [Sample.run 42] Sample.accepted Sample.t0]
     Sample.fresh)) = [42] /\
  lastProcessedRunId (state (fst (runTicks
     [Sample.offline; Sample.publishing [Sample.run 42] Sample.accepted Sample.t0]
     Sample.fresh))) = Some 42 /\
  List.length (deploymentHistory (state (fst (runTicks
     [Sample.offline; Sample.publishing [Sample.run 42] Sample.accepted Sample.t0]
     Sample.fresh)))) = 1%nat.
Proof.
  split; [reflexivity|]. split; [reflexivity|].
  destruct (discovery_failure_changes_nothing
              Sample.offline
              (Sample.publishing [Sample.run 42] Sample.accepted Sample.t0)
              Sample.fresh "ECONNRESET"%string (Sample.run 42) [])
    as [Hone Htwo]; [reflexivity|].
  split; [exact Hone|].
  apply Htwo; reflexivity.
Defined.

(** ** A processed build is not attempted again (C2) *)

(** C2, as the specification states it, fails for a run whose identifier
    is 0: the run is processed and [lastProcessedRunId] becomes 0, which
    the guard reads as "nothing processed yet"; the next tick, with the
    same page of runs, starts the pipeline on run #0 again. *)
Lemma run_zero_is_attempted_again :
  lastProcessedRunId
    (state (tick (Sample.publishing [Sample.run 0] Sample.accepted Sample.t0) Sample.fresh))
  = Some 0 /\
  attempts (snd (runTicks
    [Sample.publishing [Sample.run 0] Sample.accepted Sample.t0;
     Sample.publishing [Sample.run 0] Sample.accepted Sample.t0]
    Sample.fresh)) = [0; 0] /\
  map runId (deploymentHistory (state (fst (runTicks
    [Sample.publishing [Sample.run 0] Sample.accepted Sample.t0;
     Sample.publishing [Sample.run 0] Sample.accepted Sample.t0]
    Sample.fresh)))) = [0; 0].
Proof. repeat split; reflexivity. Qed.

(** ** Only the newest run (C7) and monotonicity (C8) *)

Lemma guard_failed (n id : Z) :
  alreadyProcessed (Some n) id = false -> n = 0 \/ n < id.
Proof.
  unfold alreadyProcessed.
  destruct (Z.eqb_spec n 0); [auto|].
  destruct (Z.leb_spec id n); [discriminate|auto].
Qed.

(** Once a positive identifier is recorded, later ticks only start the
    pipeline on runs with a larger one. *)
Lemma attempts_above (later : list TickEnv) :
  forall (w : World) (n : Z),
    lastProcessedRunId (state w) = Some n -> 0 < n ->
    forall i, In i (attempts (snd (runTicks later w))) -> n < i.
Proof.
  induction later as [|env rest IH]; intros w n Hlast Hpos i Hin; [contradiction|].
  rewrite runTicks_events_cons, attempts_app, attempts_candidate in Hin.
  destruct (valueOf (getLatestSuccessfulRun env) w) as [run|] eqn:Hcand.
  - destruct (candidate_passed_guard env w run Hcand) as [_ Hguard].
    rewrite Hlast in Hguard. apply guard_failed in Hguard.
    assert (Hlt : n < run_id run) by lia.
    destruct Hin as [<-|Hin]; [exact Hlt|].
    pose proof (IH (tick env w) (run_id run) (candidate_marked env w run Hcand)
                  ltac:(lia) i Hin).
    lia.
  - destruct (no_candidate env w Hcand) as [Htick _].
    rewrite Htick in Hin. exact (IH w n Hlast Hpos i Hin).
Qed.

(** C7: a tick looks at the first run of the page only: its whole result
    is the one it has for the page cut down to that run, and the pipeline
    is started on no other run of the page.  In the scenario,
    with #10 newest, #9 behind it and #10 not yet processed, the tick ends
    with [lastProcessedRunId = 10] having started the pipeline on #10
    alone, and no later tick, whatever GitHub and the other services
    answer, ever starts it on #9. *)
Theorem only_newest_run_is_considered (env : TickEnv) (w : World)
    (newest : WorkflowRun) (older : list WorkflowRun) :
  listWorkflowRunsForRepo env = Returns (newest :: older) ->
  processNewRun env w = processNewRun (withRuns env (Returns [newest])) w /\
  (forall i, In i (attempts (eventsOf (processNewRun env) w)) -> i = run_id newest) /\
  (forall r9 rest later,
      older = r9 :: rest ->
      run_id newest = 10 -> run_id r9 = 9 ->
      alreadyProcessed (lastProcessedRunId (state w)) 10 = false ->
      lastProcessedRunId (state (tick env w)) = Some 10 /\
      attempts (eventsOf (processNewRun env) w) = [10] /\
      ~ In 9 (attempts (snd (runTicks (env :: later) w)))).
Proof.
  intros Hruns. split; [|split].
  - destruct w as [s f]. unfold_script. simpl. rewrite Hruns. reflexivity.
  - intros i. rewrite attempts_candidate.
    destruct (valueOf (getLatestSuccessfulRun env) w) as [run|] eqn:Hcand;
      [|contradiction].
    destruct (candidate_passed_guard env w run Hcand) as [[rest Hpage] _].
    rewrite Hruns in Hpage. injection Hpage as <- _.
    intros [<-|[]]. reflexivity.
  - intros r9 rest later -> Hten Hnine Hguard.
    assert (Hcand : valueOf (getLatestSuccessfulRun env) w = Some newest).
    { destruct w as [s f]. unfold_script. simpl in *.
      rewrite Hruns. simpl. rewrite Hten, Hguard. reflexivity. }
    pose proof (candidate_marked env w newest Hcand) as Hmark.
    rewrite Hten in Hmark.
    split; [exact Hmark|]. split.
    + rewrite attempts_candidate, Hcand, Hten. reflexivity.
    + rewrite runTicks_events_cons, attempts_app, attempts_candidate, Hcand, Hten.
      intros [Habs|Hin]; [discriminate|].
      pose proof (attempts_above later (tick env w) 10 Hmark ltac:(lia) 9 Hin).
      lia.
Qed.

Lemma only_newest_run_is_considered_witness :
  listWorkflowRunsForRepo
    (Sample.publishing [Sample.run 10; Sample.run 9] Sample.accepted Sample.t0)
  = Returns [Sample.run 10; Sample.run 9] /\
  alreadyProcessed (lastProcessedRunId (state Sample.fresh)) 10 = false /\
  lastProcessedRunId (state (tick
    (Sample.publishing [Sample.run 10; Sample.run 9] Sample.accepted Sample.t0)
    Sample.fresh)) = Some 10 /\
  attempts (eventsOf (processNewRun
    (Sample.publishing [Sample.run 10; Sample.run 9] Sample.accepted Sample.t0))
    Sample.fresh) = [10] /\
  ~ In 9 (attempts (snd (runTicks
    [Sample.publishing [Sample.run 10; Sample.run 9] Sample.accepted Sample.t0;
     Sample.publishing [Sample.run 10; Sample.run 9] Sample.accepted Sample.t0;
     Sample.noArtifact [Sample.run 9];
     Sample.publishing [Sample.run 11; Sample.run 10; Sample.run 9] Sample.accepted Sample.t0]
    Sample.fresh))).
Proof.
  split; [reflexivity|]. split; [reflexivity|].
  destruct (only_newest_run_is_considered
              (Sample.publishing [Sample.run 10; Sample.run 9] Sample.accepted Sample.t0)
              Sample.fresh (Sample.run 10) [Sample.run 9] eq_refl)
    as [_ [_ Hscenario]].
  exact (Hscenario (Sample.run 9) []
           [Sample.publishing [Sample.run 10; Sample.run 9] Sample.accepted Sample.t0;
            Sample.noArtifact [Sample.run 9];
            Sample.publishing [Sample.run 11; Sample.run 10; Sample.run 9]
              Sample.accepted Sample.t0]
           eq_refl eq_refl eq_refl eq_refl).
Defined.



(** ** The bounded history (C6) *)

Lemma tick_history_bounded (env : TickEnv) (w : World) :
  (List.length (deploymentHistory (state w)) <= 50)%nat ->
  (List.length (deploymentHistory (state (tick env w))) <= 50)%nat.
Proof.
  intros H. rewrite tick_history.
  destruct (stepOf env w); try exact H.
  rewrite sliceLast_length. lia.
Qed.

(** Over a run of ticks the history is the last 50 of the old entries
    followed by the pushed ones. *)
Lemma runTicks_history (envs : list TickEnv) :
  forall w : World,
    (List.length (deploymentHistory (state w)) <= 50)%nat ->
    deploymentHistory (state (fst (runTicks envs w))) =
    sliceLast 50 (deploymentHistory (state w) ++ deployments envs w).
Proof.
  induction envs as [|env rest IH]; intros w Hlen.
  - simpl. rewrite app_nil_r. symmetry. apply sliceLast_short. exact Hlen.
  - rewrite runTicks_world_cons, (IH _ (tick_history_bounded env w Hlen)).
    simpl deployments. rewrite tick_history.
    destruct (stepOf env w); try reflexivity.
    rewrite sliceLast_absorb, <- app_assoc. reflexivity.
Qed.

Lemma allDeployed_deployments (envs : list TickEnv) :
  forall w : World,
    allDeployed envs w = true ->
    List.length (deployments envs w) = List.length envs /\
    Forall (fun r => success r = true) (deployments envs w).
Proof.
  induction envs as [|env rest IH]; intros w Hall; [split; [reflexivity|constructor]|].
  simpl in Hall |- *.
  destruct (stepOf env w) as [| | |run [|]]; try discriminate.
  destruct (IH _ Hall) as [Hlen Hok].
  split; [simpl; f_equal; exact Hlen|].
  constructor; [reflexivity|exact Hok].
Qed.

(** C6: a history of at most 50 entries still has at most 50 after any
    call of [processNewRun]; and after a run of 60 ticks that each
    published a place successfully it holds exactly the last 50 of the 60
    entries pushed, in the order they were pushed: the 10 oldest are
    gone. *)
Theorem history_is_bounded (w : World) :
  (List.length (deploymentHistory (state w)) <= 50)%nat ->
  (forall env, (List.length (deploymentHistory (state (tick env w))) <= 50)%nat) /\
  (forall envs,
      List.length envs = 60%nat ->
      allDeployed envs w = true ->
      List.length (deployments envs w) = 60%nat /\
      Forall (fun r => success r = true) (deployments envs w) /\
      deploymentHistory (state (fst (runTicks envs w))) = skipn 10 (deployments envs w) /\
      List.length (deploymentHistory (state (fst (runTicks envs w)))) = 50%nat).
Proof.
  intros Hlen. split.
  - intros env. apply tick_history_bounded. exact Hlen.
  - intros envs Hsixty Hall.
    destruct (allDeployed_deployments envs w Hall) as [Hcount Hok].
    rewrite Hsixty in Hcount.
    assert (Hhist : deploymentHistory (state (fst (runTicks envs w)))
                    = skipn 10 (deployments envs w)).
    { rewrite (runTicks_history envs w Hlen).
      rewrite sliceLast_app_long by lia.
      unfold sliceLast. rewrite Hcount. reflexivity. }
    repeat split; try assumption.
    rewrite Hhist, length_skipn, Hcount. reflexivity.
Qed.

Lemma history_is_bounded_witness :
  (List.length (deploymentHistory (state Sample.fresh)) <= 50)%nat /\
  List.length Sample.sixty = 60%nat /\
  allDeployed Sample.sixty Sample.fresh = true /\
  map runId (deployments Sample.sixty Sample.fresh) = map Z.of_nat (seq 1 60) /\
  deploymentHistory (state (fst (runTicks Sample.sixty Sample.fresh)))
  = skipn 10 (deployments Sample.sixty Sample.fresh) /\
  List.length (deploymentHistory (state (fst (runTicks Sample.sixty Sample.fresh)))) = 50%nat.
Proof.
  assert (Hlen : (List.length (deploymentHistory (state Sample.fresh)) <= 50)%nat)
    by (simpl; lia).
  assert (Hall : allDeployed Sample.sixty Sample.fresh = true) by (vm_compute; reflexivity).
  split; [exact Hlen|]. split; [reflexivity|]. split; [exact Hall|].
  split; [vm_compute; reflexivity|].
  destruct (history_is_bounded Sample.fresh Hlen) as [_ Hrun].
  destruct (Hrun Sample.sixty eq_refl Hall) as [_ [_ [Hhist Hfifty]]].
  split; [exact Hhist|exact Hfifty].
Defined.

Example sixty_deployments_keep_runs_11_to_60 :
  map runId (deploymentHistory (state (fst (runTicks Sample.sixty Sample.fresh))))
  = map Z.of_nat (seq 11 50).
Proof. vm_compute. reflexivity. Qed.

(** * The rest of the script *)

(** ** Publishing *)

(** X1: [publishToRoblox] answers [true] exactly when [fetch] resolved, the
    response was [ok] and its body could be read as JSON; whatever the
    answer, it sends the place once and leaves the state and the state
    file alone. *)
Theorem publish_succeeds_iff (env : TickEnv) (place : Buffer) (w : World) :
  (valueOf (publishToRoblox env place) w = true <->
   exists response result,
     fetchPublish env place = Returns response /\
     ok response = true /\
     json response = Returns result) /\
  worldOf (publishToRoblox env place) w = w /\
  publishes (eventsOf (publishToRoblox env place) w) = [place].
Proof.
  unfold valueOf, worldOf, eventsOf, publishToRoblox, bind, emit, ret. simpl.
  destruct (fetchPublish env place) as [e|response]; simpl.
  - split; [|split; reflexivity].
    split; [discriminate|]. intros [r [v [H _]]]. discriminate.
  - destruct (ok response) eqn:Hok; simpl.
    + destruct (json response) as [e|result] eqn:Hjson; simpl.
      * split; [|split; reflexivity].
        split; [discriminate|].
        intros [r [v [Hr [_ Hj]]]]. injection Hr as <-. congruence.
      * split; [|split; reflexivity].
        split; [|reflexivity].
        intros _. exists response, result. repeat split; assumption.
    + destruct (text response) as [e|errorText]; simpl;
        (split; [|split; reflexivity]);
        (split; [discriminate|]);
        intros [r [v [Hr [Hk _]]]]; injection Hr as <-; congruence.
Qed.

(** An accepted upload whose answer is not JSON is recorded as a failed
    deployment. *)
Example accepted_without_json_is_a_failure :
  map (fun r => (success r, error r))
    (deploymentHistory (state (tick
       (Sample.publishing [Sample.run 3] SampleProcess.okWithoutJson Sample.t0)
       Sample.fresh)))
  = [(false, Some "Failed to publish to Roblox"%string)].
Proof. reflexivity. Qed.

(** ** Downloading *)

Lemma find_first {A} (f : A -> bool) (l : list A) (a : A) :
  find f l = Some a <->
  exists before after,
    l = before ++ a :: after /\ f a = true /\ Forall (fun b => f b = false) before.
Proof.
  induction l as [|x l IH]; simpl.
  - split; [discriminate|]. intros [[|b before] [after [H _]]]; discriminate.
  - destruct (f x) eqn:Hx.
    + split.
      * intros H. injection H as ->. exists [], l. repeat split; auto.
      * intros [[|b before] [after [Hl [Ha Hbefore]]]].
        -- simpl in Hl. injection Hl as -> _. reflexivity.
        -- simpl in Hl. injection Hl as <- _.
           apply Forall_inv in Hbefore. congruence.
    + rewrite IH. split.
      * intros [before [after [-> [Ha Hbefore]]]].
        exists (x :: before), after. repeat split; auto.
      * intros [[|b before] [after [Hl [Ha Hbefore]]]].
        -- simpl in Hl. injection Hl as -> _. congruence.
        -- simpl in Hl. injection Hl as <- ->.
           exists before, after. repeat split; auto.
           exact (Forall_inv_tail Hbefore).
Qed.

(** X2: [downloadArtifact] returns an archive exactly when the artifacts of
    the run could be listed, one of them is named [place-file], and the
    download of the first such artifact succeeded; artifacts of other
    names before it, and everything after it, play no part, and no other
    artifact is ever asked for. *)
Theorem download_takes_first_place_file (env : TickEnv) (runId : Z) (w : World)
    (zip : Buffer) :
  (valueOf (downloadArtifact env runId) w = Some zip <->
   exists before a after,
     listWorkflowRunArtifacts env runId = Returns (before ++ a :: after) /\
     isPlaceFile a = true /\
     Forall (fun b => isPlaceFile b = false) before /\
     downloadArtifactZip env (artifact_id a) = Returns zip) /\
  (forall id, In id (downloads (eventsOf (downloadArtifact env runId) w)) ->
   exists before a after,
     listWorkflowRunArtifacts env runId = Returns (before ++ a :: after) /\
     isPlaceFile a = true /\
     Forall (fun b => isPlaceFile b = false) before /\
     id = artifact_id a) /\
  worldOf (downloadArtifact env runId) w = w.
Proof.
  unfold valueOf, worldOf, eventsOf, downloadArtifact, bind, emit, ret. simpl.
  destruct (listWorkflowRunArtifacts env runId) as [e|arts]; simpl.
  - split; [|split; [intros id []|reflexivity]].
    split; [discriminate|]. intros [b [a [after [H _]]]]. discriminate.
  - change (fun a : Artifact => (name a =? "place-file")%string) with isPlaceFile.
    destruct (find isPlaceFile arts) as [a|] eqn:Hfind; simpl.
    + pose proof (proj1 (find_first isPlaceFile arts a) Hfind)
        as [before [after [Harts [Ha Hbefore]]]].
      assert (Hsame : forall before' a' after',
                 Returns arts = Returns (before' ++ a' :: after') ->
                 isPlaceFile a' = true ->
                 Forall (fun b => isPlaceFile b = false) before' -> a' = a).
      { intros before' a' after' Heq Ha' Hb'. injection Heq as Heq.
        assert (Hf : find isPlaceFile arts = Some a').
        { apply find_first. exists before', after'. auto. }
        congruence. }
      destruct (downloadArtifactZip env (artifact_id a)) as [e|data] eqn:Hdl; simpl.
      * split; [|split; [|reflexivity]].
        -- split; [discriminate|].
           intros [b' [a' [after' [Heq [Ha' [Hb' Hd]]]]]].
           rewrite (Hsame _ _ _ Heq Ha' Hb') in Hd. congruence.
        -- intros id [<-|[]]. exists before, a, after. subst arts. auto.
      * split; [|split; [|reflexivity]].
        -- split.
           ++ intros H. injection H as ->. exists before, a, after. subst arts. auto.
           ++ intros [b' [a' [after' [Heq [Ha' [Hb' Hd]]]]]].
              rewrite (Hsame _ _ _ Heq Ha' Hb') in Hd. congruence.
        -- intros id [<-|[]]. exists before, a, after. subst arts. auto.
    + split; [|split; [intros id []|reflexivity]].
      split; [discriminate|].
      intros [before [a [after [Heq [Ha [Hbefore _]]]]]]. injection Heq as ->.
      assert (Hf : find isPlaceFile (before ++ a :: after) = Some a).
      { apply find_first. exists before, after. auto. }
      congruence.
Qed.

Example second_place_file_is_ignored :
  valueOf (downloadArtifact SampleProcess.twoPlaceFiles 5) Sample.fresh = Some Sample.zip /\
  downloads (eventsOf (downloadArtifact SampleProcess.twoPlaceFiles 5) Sample.fresh) = [2].
Proof. split; reflexivity. Qed.

(** ** The requests of one call *)

(** X3: the requests of one call of [processNewRun] come in the order of the
    pipeline, each at most once: the runs are listed; with a candidate its
    artifacts are listed, then the archive is downloaded, unpacked and
    the place published, stopping after the first step that fails; and
    once there is a candidate the state file is written last.  Without
    candidate nothing but the list of runs is asked for. *)
Theorem requests_follow_the_pipeline (env : TickEnv) (w : World) :
  match stepOf env w with
  | NoCandidate =>
      kinds (eventsOf (processNewRun env) w) = [ListRuns]
  | StoppedAtFetch _ =>
      kinds (eventsOf (processNewRun env) w) = [ListRuns; ListArtifacts; WriteState] \/
      kinds (eventsOf (processNewRun env) w)
      = [ListRuns; ListArtifacts; Download; WriteState]
  | StoppedAtExtract _ =>
      kinds (eventsOf (processNewRun env) w)
      = [ListRuns; ListArtifacts; Download; Unzip; WriteState]
  | ReachedPublish _ _ =>
      kinds (eventsOf (processNewRun env) w)
      = [ListRuns; ListArtifacts; Download; Unzip; Publish; WriteState]
  end.
Proof.
  destruct w as [s f]. unfold_script.
  split_answers; auto.
Qed.

(** ** Each build at most once *)

Lemma stepOf_candidate (env : TickEnv) (w : World) :
  match stepOf env w with
  | NoCandidate => valueOf (getLatestSuccessfulRun env) w = None
  | StoppedAtFetch run => valueOf (getLatestSuccessfulRun env) w = Some run
  | StoppedAtExtract run => valueOf (getLatestSuccessfulRun env) w = Some run
  | ReachedPublish run _ => valueOf (getLatestSuccessfulRun env) w = Some run
  end.
Proof.
  unfold stepOf.
  destruct (valueOf (getLatestSuccessfulRun env) w) as [run|]; [|reflexivity].
  destruct (valueOf (downloadArtifact env (run_id run)) w) as [zip|]; [|reflexivity].
  destruct (valueOf (extractPlaceFile env zip) w); reflexivity.
Qed.

Lemma candidate_positive (env : TickEnv) (w : World) (run : WorkflowRun) :
  positiveIds env ->
  valueOf (getLatestSuccessfulRun env) w = Some run ->
  0 < run_id run.
Proof.
  intros Hpos Hcand.
  destruct (candidate_passed_guard env w run Hcand) as [[rest Hruns] _].
  unfold positiveIds in Hpos. rewrite Hruns in Hpos.
  exact (Forall_inv Hpos).
Qed.

Lemma StronglySorted_lt_app (a b : list Z) :
  StronglySorted Z.lt a -> StronglySorted Z.lt b ->
  (forall x y, In x a -> In y b -> x < y) ->
  StronglySorted Z.lt (a ++ b).
Proof.
  intros Ha Hb Hab. induction Ha as [|x a Ha IH Hx]; [exact Hb|].
  simpl. constructor.
  - apply IH. intros u v Hu Hv. apply Hab; [right; exact Hu|exact Hv].
  - apply Forall_app. split; [exact Hx|].
    apply Forall_forall. intros y Hy. apply Hab; [left; reflexivity|exact Hy].
Qed.

Lemma StronglySorted_skipn {A} (R : A -> A -> Prop) (k : nat) :
  forall l, StronglySorted R l -> StronglySorted R (skipn k l).
Proof.
  induction k as [|k IH]; intros l Hl; [exact Hl|].
  destruct l as [|x l]; [exact Hl|].
  simpl. apply IH. exact (proj1 (StronglySorted_inv Hl)).
Qed.

Lemma Forall_skipn_keep {A} (Q : A -> Prop) (k : nat) :
  forall l, Forall Q l -> Forall Q (skipn k l).
Proof.
  induction k as [|k IH]; intros l Hl; [exact Hl|].
  destruct l as [|x l]; [exact Hl|].
  simpl. apply IH. exact (Forall_inv_tail Hl).
Qed.

Lemma attempts_sorted (envs : list TickEnv) :
  forall w : World,
    Forall positiveIds envs ->
    StronglySorted Z.lt (attempts (snd (runTicks envs w))).
Proof.
  induction envs as [|env rest IH]; intros w Hall; [constructor|].
  pose proof (Forall_inv Hall) as Hpos. pose proof (Forall_inv_tail Hall) as Hrest.
  rewrite runTicks_events_cons, attempts_app, attempts_candidate.
  destruct (valueOf (getLatestSuccessfulRun env) w) as [run|] eqn:Hcand.
  - simpl. constructor; [exact (IH _ Hrest)|].
    apply Forall_forall. intros i Hi.
    exact (attempts_above rest (tick env w) (run_id run)
             (candidate_marked env w run Hcand)
             (candidate_positive env w run Hpos Hcand) i Hi).
  - exact (IH _ Hrest).
Qed.

(** Every attempt of a run of ticks is on a positive run that is not newer
    than the last processed one at the end. *)
Lemma attempts_below (envs : list TickEnv) :
  forall w : World,
    Forall positiveIds envs ->
    forall i, In i (attempts (snd (runTicks envs w))) ->
      0 < i /\
      exists m, lastProcessedRunId (state (fst (runTicks envs w))) = Some m /\ i <= m.
Proof.
  induction envs as [|env rest IH]; intros w Hall i Hin; [contradiction|].
  pose proof (Forall_inv Hall) as Hpos. pose proof (Forall_inv_tail Hall) as Hrest.
  rewrite runTicks_events_cons, attempts_app, attempts_candidate in Hin.
  rewrite runTicks_world_cons.
  apply in_app_or in Hin. destruct Hin as [Hin|Hin]; [|exact (IH _ Hrest i Hin)].
  destruct (valueOf (getLatestSuccessfulRun env) w) as [run|] eqn:Hcand;
    [|contradiction].
  destruct Hin as [<-|[]].
  pose proof (candidate_positive env w run Hpos Hcand) as Hgt.
  split; [exact Hgt|].
  clear IH Hall Hpos.
  pose proof (candidate_marked env w run Hcand) as Hmark.
  revert Hmark Hgt. generalize (tick env w) as w1. generalize (run_id run) as n.
  induction rest as [|env1 rest IH]; intros n w1 Hmark Hgt.
  - exists n. split; [exact Hmark|lia].
  - rewrite runTicks_world_cons.
    destruct (valueOf (getLatestSuccessfulRun env1) w1) as [r1|] eqn:Hc1.
    + destruct (candidate_passed_guard env1 w1 r1 Hc1) as [_ Hguard].
      rewrite Hmark in Hguard. apply guard_failed in Hguard.
      destruct (IH (Forall_inv_tail Hrest) (run_id r1) (tick env1 w1)
                  (candidate_marked env1 w1 r1 Hc1) ltac:(lia)) as [m [Hm Hle]].
      exists m. split; [exact Hm|lia].
    + destruct (no_candidate env1 w1 Hc1) as [-> _].
      exact (IH (Forall_inv_tail Hrest) n w1 Hmark Hgt).
Qed.

(** Calls made one after the other never lower a positive
    [lastProcessedRunId], whatever the pages hold. *)
Lemma runTicks_positive_never_decreases (envs : list TickEnv) (w : World) (n : Z) :
  lastProcessedRunId (state w) = Some n ->
  0 < n ->
  exists m, lastProcessedRunId (state (fst (runTicks envs w))) = Some m /\ n <= m.
Proof.
  revert w n. induction envs as [|env rest IH]; intros w n Hlast Hpos.
  - exists n. split; [exact Hlast|lia].
  - rewrite runTicks_world_cons.
    destruct (valueOf (getLatestSuccessfulRun env) w) as [run|] eqn:Hcand.
    + destruct (candidate_passed_guard env w run Hcand) as [_ Hguard].
      rewrite Hlast in Hguard. apply guard_failed in Hguard.
      destruct (IH (tick env w) (run_id run) (candidate_marked env w run Hcand)
                  ltac:(lia)) as [m [Hm Hle]].
      exists m. split; [exact Hm|lia].
    + destruct (no_candidate env w Hcand) as [-> _].
      exact (IH w n Hlast Hpos).
Qed.

(** ** Invariants of the history *)

Lemma runTicks_invariant (Inv : World -> Prop) (envs : list TickEnv) (Q : TickEnv -> Prop) :
  (forall env w, Q env -> Inv w -> Inv (tick env w)) ->
  Forall Q envs ->
  forall w, Inv w -> Inv (fst (runTicks envs w)).
Proof.
  intros Hstep Hall. induction Hall as [|env rest Hq _ IH]; intros w Hw; [exact Hw|].
  rewrite runTicks_world_cons. apply IH. apply Hstep; assumption.
Qed.

Lemma tick_state (env : TickEnv) (w : World) :
  state (tick env w) =
  match stepOf env w with
  | NoCandidate => state w
  | StoppedAtFetch run => markProcessed run (state w)
  | StoppedAtExtract run => markProcessed run (state w)
  | ReachedPublish run b => recordAttempt env run b (state w)
  end.
Proof. rewrite tick_by_step. destruct (stepOf env w); reflexivity. Qed.

Lemma tick_well_formed (env : TickEnv) (w : World) :
  Forall wellFormedEntry (deploymentHistory (state w)) ->
  Forall wellFormedEntry (deploymentHistory (state (tick env w))).
Proof.
  intros H. rewrite tick_history.
  destruct (stepOf env w) as [| | |run b]; try exact H.
  apply Forall_skipn_keep. apply Forall_app. split; [exact H|].
  constructor; [|constructor].
  unfold wellFormedEntry, historyEntry. destruct b; simpl; auto.
Qed.

(** X7: over any sequence of calls, whatever the services answer, the history
    only holds entries that are a success without [error] or a failure
    with the reason "Failed to publish to Roblox", when it started so. *)
Theorem history_entries_stay_well_formed (envs : list TickEnv) (w : World) :
  Forall wellFormedEntry (deploymentHistory (state w)) ->
  Forall wellFormedEntry (deploymentHistory (state (fst (runTicks envs w)))).
Proof.
  intros H.
  apply (runTicks_invariant
           (fun w => Forall wellFormedEntry (deploymentHistory (state w)))
           envs (fun _ => True)); auto.
  - intros env w0 _. apply tick_well_formed.
  - apply Forall_forall. auto.
Qed.

Lemma history_entries_stay_well_formed_witness :
  Forall wellFormedEntry (deploymentHistory (state Sample.fresh)) /\
  Forall wellFormedEntry (deploymentHistory (state (fst (runTicks
    [Sample.publishing [Sample.run 3] (Sample.rejected "denied") Sample.t0;
     Sample.publishing [Sample.run 4] Sample.accepted Sample.t0]
    Sample.fresh)))) /\
  List.length (deploymentHistory (state (fst (runTicks
    [Sample.publishing [Sample.run 3] (Sample.rejected "denied") Sample.t0;
     Sample.publishing [Sample.run 4] Sample.accepted Sample.t0]
    Sample.fresh)))) = 2%nat.
Proof.
  assert (H0 : Forall wellFormedEntry (deploymentHistory (state Sample.fresh)))
    by constructor.
  split; [exact H0|].
  split; [exact (history_entries_stay_well_formed _ Sample.fresh H0)|reflexivity].
Defined.

Lemma tick_dated (env : TickEnv) (w : World) :
  datedByHistory (state w) -> datedByHistory (state (tick env w)).
Proof.
  unfold datedByHistory. intros H. rewrite tick_state.
  destruct (stepOf env w) as [| | |run b]; try exact H.
  unfold recordAttempt. cbn [lastDeployedAt deploymentHistory].
  rewrite sliceLast_snoc, map_app. simpl map. rewrite last_last. reflexivity.
Qed.

(** X8: [lastDeployedAt] and the history move together: over any sequence of
    calls [lastDeployedAt] is the [deployedAt] of the newest history
    entry (and unset while the history is empty), when it started so. *)
Theorem lastDeployedAt_is_the_newest_entry (envs : list TickEnv) (w : World) :
  datedByHistory (state w) ->
  datedByHistory (state (fst (runTicks envs w))).
Proof.
  intros H.
  apply (runTicks_invariant (fun w => datedByHistory (state w)) envs (fun _ => True));
    auto.
  - intros env w0 _. apply tick_dated.
  - apply Forall_forall. auto.
Qed.

Lemma lastDeployedAt_is_the_newest_entry_witness :
  datedByHistory (state Sample.fresh) /\
  datedByHistory (state (fst (runTicks
    [Sample.publishing [Sample.run 3] Sample.accepted "2024-05-01T12:00:30.000Z";
     Sample.noArtifact [Sample.run 4];
     Sample.publishing [Sample.run 5] (Sample.rejected "denied") "2024-05-01T12:01:30.000Z"]
    Sample.fresh))) /\
  lastDeployedAt (state (fst (runTicks
    [Sample.publishing [Sample.run 3] Sample.accepted "2024-05-01T12:00:30.000Z";
     Sample.noArtifact [Sample.run 4];
     Sample.publishing [Sample.run 5] (Sample.rejected "denied") "2024-05-01T12:01:30.000Z"]
    Sample.fresh))) = Some "2024-05-01T12:01:30.000Z"%string.
Proof.
  assert (H0 : datedByHistory (state Sample.fresh)) by reflexivity.
  split; [exact H0|].
  split; [exact (lastDeployedAt_is_the_newest_entry _ Sample.fresh H0)|reflexivity].
Defined.

Lemma tick_ordered (env : TickEnv) (w : World) :
  positiveIds env ->
  orderedHistory (state w) -> orderedHistory (state (tick env w)).
Proof.
  intros Hpos [Hsorted Hbound]. rewrite tick_state.
  pose proof (stepOf_candidate env w) as Hcand.
  assert (Hnewer : forall run,
             valueOf (getLatestSuccessfulRun env) w = Some run ->
             0 < run_id run /\
             Forall (fun r => 0 < runId r /\ runId r < run_id run)
                    (deploymentHistory (state w))).
  { intros run Hrun. split; [exact (candidate_positive env w run Hpos Hrun)|].
    destruct (candidate_passed_guard env w run Hrun) as [_ Hguard].
    apply Forall_forall. intros r Hr.
    rewrite Forall_forall in Hbound. destruct (Hbound r Hr) as [Hr0 [n [Hn Hle]]].
    rewrite Hn in Hguard. apply guard_failed in Hguard. lia. }
  assert (Hmark : forall run,
             valueOf (getLatestSuccessfulRun env) w = Some run ->
             orderedHistory (markProcessed run (state w))).
  { intros run Hrun. destruct (Hnewer run Hrun) as [_ Hall].
    split; [exact Hsorted|]. simpl.
    apply Forall_forall. intros r Hr. rewrite Forall_forall in Hall.
    destruct (Hall r Hr) as [Hr0 Hlt].
    split; [exact Hr0|]. exists (run_id run). split; [reflexivity|lia]. }
  destruct (stepOf env w) as [| | |run b]; auto.
  - split; assumption.
  - destruct (Hnewer run Hcand) as [Hgt Hall].
    unfold orderedHistory, recordAttempt. cbn [lastProcessedRunId deploymentHistory].
    unfold sliceLast. split.
    + rewrite <- skipn_map. apply StronglySorted_skipn.
      rewrite map_app. apply StronglySorted_lt_app; [exact Hsorted|repeat constructor|].
      intros x y Hx [<-|[]]. apply in_map_iff in Hx as [r [<- Hr]].
      rewrite Forall_forall in Hall. simpl. exact (proj2 (Hall r Hr)).
    + apply Forall_skipn_keep. apply Forall_app. split.
      * apply Forall_forall. intros r Hr. rewrite Forall_forall in Hall.
        destruct (Hall r Hr) as [Hr0 Hlt].
        split; [exact Hr0|]. exists (run_id run). split; [reflexivity|lia].
      * constructor; [|constructor]. simpl.
        split; [exact Hgt|]. exists (run_id run). split; [reflexivity|lia].
Qed.

(** With positive run identifiers, calls made one after the other keep the
    history in strictly increasing order of run. *)
Lemma runTicks_ordered (envs : list TickEnv) (w : World) :
  Forall positiveIds envs ->
  orderedHistory (state w) ->
  orderedHistory (state (fst (runTicks envs w))) /\
  NoDup (map runId (deploymentHistory (state (fst (runTicks envs w))))).
Proof.
  intros Hall H0.
  assert (H : orderedHistory (state (fst (runTicks envs w)))).
  { apply (runTicks_invariant (fun w => orderedHistory (state w)) envs positiveIds);
      auto.
    intros env w0. apply tick_ordered. }
  split; [exact H|].
  destruct H as [Hsorted _].
  induction Hsorted as [|x l _ IH Hx]; constructor; [|exact IH].
  intros Hin. rewrite Forall_forall in Hx. specialize (Hx x Hin). lia.
Qed.

Lemma deployments_count (envs : list TickEnv) :
  forall w, List.length (deployments envs w) = publishCount envs w.
Proof.
  induction envs as [|env rest IH]; intros w; [reflexivity|].
  simpl. rewrite length_app, IH. destruct (stepOf env w); reflexivity.
Qed.

(** X10: the history grows by one entry for each call that reaches the publish
    step and by none for any other, up to the bound of 50. *)
Theorem history_counts_publish_attempts (envs : list TickEnv) (w : World) :
  (List.length (deploymentHistory (state w)) <= 50)%nat ->
  List.length (deploymentHistory (state (fst (runTicks envs w)))) =
  Nat.min 50 (List.length (deploymentHistory (state w)) + publishCount envs w).
Proof.
  intros Hlen.
  rewrite (runTicks_history envs w Hlen), sliceLast_length, length_app,
    deployments_count.
  reflexivity.
Qed.

Lemma history_counts_publish_attempts_witness :
  (List.length (deploymentHistory (state Sample.fresh)) <= 50)%nat /\
  publishCount
    [Sample.publishing [Sample.run 3] Sample.accepted Sample.t0;
     Sample.noArtifact [Sample.run 4];
     Sample.noPlaceInZip [Sample.run 5];
     Sample.offline;
     Sample.publishing [Sample.run 6] (Sample.rejected "denied") Sample.t0]
    Sample.fresh = 2%nat /\
  List.length (deploymentHistory (state (fst (runTicks
    [Sample.publishing [Sample.run 3] Sample.accepted Sample.t0;
     Sample.noArtifact [Sample.run 4];
     Sample.noPlaceInZip [Sample.run 5];
     Sample.offline;
     Sample.publishing [Sample.run 6] (Sample.rejected "denied") Sample.t0]
    Sample.fresh)))) =
  Nat.min 50 (List.length (deploymentHistory (state Sample.fresh)) +
    publishCount
      [Sample.publishing [Sample.run 3] Sample.accepted Sample.t0;
       Sample.noArtifact [Sample.run 4];
       Sample.noPlaceInZip [Sample.run 5];
       Sample.offline;
       Sample.publishing [Sample.run 6] (Sample.rejected "denied") Sample.t0]
      Sample.fresh).
Proof.
  assert (Hlen : (List.length (deploymentHistory (state Sample.fresh)) <= 50)%nat)
    by (simpl; lia).
  split; [exact Hlen|]. split; [reflexivity|].
  exact (history_counts_publish_attempts _ Sample.fresh Hlen).
Defined.

(** * The process *)

(** ** Configuration *)

Lemma filter_nil_iff {A} (f : A -> bool) (l : list A) :
  filter f l = [] <-> forall x, In x l -> f x = false.
Proof.
  induction l as [|a l IH]; simpl; [split; [intros _ x []|reflexivity]|].
  destruct (f a) eqn:Ha.
  - split; [discriminate|]. intros H. specialize (H a (or_introl eq_refl)). congruence.
  - rewrite IH. split.
    + intros H x [<-|Hx]; auto.
    + intros H x Hx. apply H. right. exact Hx.
Qed.

Lemma validateConfig_result (penv : Environ) (w : World) :
  validateConfig penv w =
  match filter (fun key => unset (penv key)) required with
  | [] => (Continues tt, w, [LogConfigValidated])
  | missing =>
      (Exits 1, w,
       ErrMissingVariables :: map ErrMissingVariable missing ++ [ErrCreateEnvFile; Exit 1])
  end.
Proof.
  unfold validateConfig.
  destruct (filter (fun key => unset (penv key)) required) as [|k missing];
    reflexivity.
Qed.

Lemma validateConfig_configured (penv : Environ) (w : World) :
  configuredWith penv ->
  validateConfig penv w = (Continues tt, w, [LogConfigValidated]).
Proof.
  intros H. rewrite validateConfig_result.
  rewrite (proj2 (filter_nil_iff _ required) H). reflexivity.
Qed.

(** X11: [validateConfig] lets the process go on exactly when each of the six
    required variables is set to a string that is not empty; otherwise it
    ends the process with code 1 after naming exactly the variables that
    are unset or empty.  It changes nothing. *)
Theorem validateConfig_checks_all_six (penv : Environ) (w : World) :
  (outcomeOfP (validateConfig penv) w = Continues tt <-> configuredWith penv) /\
  (outcomeOfP (validateConfig penv) w <> Continues tt ->
   outcomeOfP (validateConfig penv) w = Exits 1) /\
  (forall key,
      In (ErrMissingVariable key) (eventsOfP (validateConfig penv) w) <->
      In key required /\ unset (penv key) = true) /\
  worldOfP (validateConfig penv) w = w.
Proof.
  unfold outcomeOfP, worldOfP, eventsOfP, configuredWith.
  rewrite validateConfig_result.
  pose proof (filter_nil_iff (fun key => unset (penv key)) required) as Hnil.
  pose proof (fun key => filter_In (fun key => unset (penv key)) key required) as Hin.
  destruct (filter (fun key => unset (penv key)) required) as [|k missing] eqn:Hf;
    cbn [fst snd].
  - split; [|split; [|split]].
    + split; [intros _; apply Hnil; reflexivity|reflexivity].
    + intros H. contradiction H. reflexivity.
    + intros key. split.
      * intros [[=]|[]].
      * intros H. apply Hin in H. contradiction.
    + reflexivity.
  - split; [|split; [|split]].
    + split; [discriminate|]. intros H. apply Hnil in H. discriminate.
    + intros _. reflexivity.
    + intros key. rewrite <- Hin. split.
      * intros [[=]|H]. apply in_app_or in H as [H|[[=]|[[=]|[]]]].
        apply in_map_iff in H as [x [Hx Hi]]. injection Hx as ->. exact Hi.
      * intros H. right. apply in_or_app. left. apply in_map. exact H.
    + reflexivity.
Qed.

Example empty_and_unset_variables_are_reported :
  validateConfig SampleProcess.incomplete Sample.fresh =
  (Exits 1, Sample.fresh,
   [ErrMissingVariables; ErrMissingVariable "GITHUB_REPO";
    ErrMissingVariable "ROBLOX_API_KEY"; ErrCreateEnvFile; Exit 1]).
Proof. reflexivity. Qed.

(** ** Start *)

Lemma scriptEvents_map (evs : list Event) : scriptEvents (map Script evs) = evs.
Proof. induction evs as [|e evs IH]; [reflexivity|]. simpl. f_equal. exact IH. Qed.

Lemma scriptEvents_app (a b : list ProcEvent) :
  scriptEvents (a ++ b) = scriptEvents a ++ scriptEvents b.
Proof. unfold scriptEvents. apply flat_map_app. Qed.

Lemma script_result {A} (m : M A) (w : World) :
  script m w = (Continues (valueOf m w), worldOf m w, map Script (eventsOf m w)).
Proof.
  unfold script, valueOf, worldOf, eventsOf. destruct (m w) as [[a w'] evs]. reflexivity.
Qed.

(** What [loadState] leaves in memory. *)
Lemma loadState_state (readParse : Response unit) (w : World) :
  outcomeOfP (loadState readParse) w = Continues tt /\
  stateFile (worldOfP (loadState readParse) w) = stateFile w /\
  state (worldOfP (loadState readParse) w) =
  match stateFile w, readParse with
  | Some s, Returns _ => s
  | _, _ => state w
  end /\
  scriptEvents (eventsOfP (loadState readParse) w) = [].
Proof.
  unfold outcomeOfP, worldOfP, eventsOfP, loadState.
  destruct (stateFile w) as [s|] eqn:Hf; [destruct readParse|]; simpl; auto.
Qed.

Lemma main_configured (penv : Environ) (readParse : Response unit) (first : TickEnv)
    (w : World) :
  configuredWith penv ->
  outcomeOfP (main penv readParse first) w = Continues tt /\
  worldOfP (main penv readParse first) w
  = tick first (worldOfP (loadState readParse) w) /\
  scriptEvents (eventsOfP (main penv readParse first) w)
  = eventsOf (processNewRun first) (worldOfP (loadState readParse) w).
Proof.
  intros Hconf.
  unfold outcomeOfP, worldOfP, eventsOfP, main, bindP, say.
  rewrite (validateConfig_configured penv w Hconf).
  destruct (loadState_state readParse w) as [Hout [_ [_ Hev]]].
  unfold outcomeOfP, worldOfP, eventsOfP in *.
  destruct (loadState readParse w) as [[o w1] l1]. simpl in Hout, Hev. subst o.
  rewrite script_result. cbn [fst snd].
  rewrite !scriptEvents_app, Hev, scriptEvents_map. simpl. rewrite app_nil_r.
  repeat split; reflexivity.
Qed.

(** X12: with a required variable unset or empty, [main] ends the process with
    code 1 right after [validateConfig]: the state file is not read, no
    service is asked anything, and the state and the state file are as
    they were. *)
Theorem main_stops_on_missing_configuration (penv : Environ)
    (readParse : Response unit) (first : TickEnv) (w : World) (key : string) :
  In key required ->
  unset (penv key) = true ->
  outcomeOfP (main penv readParse first) w = Exits 1 /\
  worldOfP (main penv readParse first) w = w /\
  eventsOfP (main penv readParse first) w
  = LogStarting :: eventsOfP (validateConfig penv) w /\
  scriptEvents (eventsOfP (main penv readParse first) w) = [] /\
  In (ErrMissingVariable key) (eventsOfP (main penv readParse first) w).
Proof.
  intros Hkey Hunset.
  assert (Hin : In key (filter (fun k => unset (penv k)) required))
    by (apply filter_In; auto).
  unfold outcomeOfP, worldOfP, eventsOfP, main, bindP, say.
  rewrite validateConfig_result.
  destruct (filter (fun k => unset (penv k)) required) as [|k missing];
    [contradiction|].
  cbn [fst snd app].
  repeat split.
  - cbn [scriptEvents flat_map app]. rewrite scriptEvents_app.
    assert (Hmap : forall l, scriptEvents (map ErrMissingVariable l) = []).
    { induction l as [|x l IH]; [reflexivity|exact IH]. }
    rewrite Hmap. reflexivity.
  - right. right. apply in_or_app. left. apply in_map. exact Hin.
Qed.

Lemma main_stops_on_missing_configuration_witness :
  In "GITHUB_REPO"%string required /\
  unset (SampleProcess.incomplete "GITHUB_REPO"%string) = true /\
  outcomeOfP (main SampleProcess.incomplete (Returns tt)
                (Sample.publishing [Sample.run 7] Sample.accepted Sample.t0))
    Sample.fresh = Exits 1 /\
  scriptEvents (eventsOfP (main SampleProcess.incomplete (Returns tt)
                (Sample.publishing [Sample.run 7] Sample.accepted Sample.t0))
    Sample.fresh) = [].
Proof.
  assert (Hkey : In "GITHUB_REPO"%string required) by (simpl; auto).
  split; [exact Hkey|]. split; [reflexivity|].
  destruct (main_stops_on_missing_configuration SampleProcess.incomplete (Returns tt)
              (Sample.publishing [Sample.run 7] Sample.accepted Sample.t0)
              Sample.fresh "GITHUB_REPO"%string Hkey eq_refl)
    as [Hout [_ [_ [Hscript _]]]].
  split; [exact Hout|exact Hscript].
Defined.

(** X13: with the six variables set, and a state file that is missing,
    cannot be read or parsed, or holds a state as [saveState] writes it,
    [main] does not end the process: it takes the content of the state
    file as state when the file exists and can be read and parsed, keeps
    the state it has otherwise, and then runs [processNewRun] once, before
    the timer makes its first call. *)
Theorem main_loads_then_checks_once (penv : Environ) (readParse : Response unit)
    (first : TickEnv) (w : World) :
  configuredWith penv ->
  outcomeOfP (main penv readParse first) w = Continues tt /\
  worldOfP (main penv readParse first) w
  = tick first (worldOfP (loadState readParse) w) /\
  scriptEvents (eventsOfP (main penv readParse first) w)
  = eventsOf (processNewRun first) (worldOfP (loadState readParse) w) /\
  stateFile (worldOfP (loadState readParse) w) = stateFile w /\
  state (worldOfP (loadState readParse) w) =
  match stateFile w, readParse with
  | Some s, Returns _ => s
  | _, _ => state w
  end.
Proof.
  intros Hconf.
  destruct (main_configured penv readParse first w Hconf) as [Hout [Hw Hev]].
  destruct (loadState_state readParse w) as [_ [Hfile [Hstate _]]].
  repeat split; assumption.
Qed.

Lemma main_loads_then_checks_once_witness :
  configuredWith SampleProcess.configured /\
  outcomeOfP (main SampleProcess.configured (Returns tt)
                (Sample.publishing [Sample.run 7] Sample.accepted Sample.t0))
    (reboot {| state := initialState; stateFile := Some (state (Sample.after 7)) |})
  = Continues tt /\
  attempts (scriptEvents (eventsOfP (main SampleProcess.configured (Returns tt)
                (Sample.publishing [Sample.run 7] Sample.accepted Sample.t0))
    (reboot {| state := initialState; stateFile := Some (state (Sample.after 7)) |})))
  = [] /\
  attempts (scriptEvents (eventsOfP (main SampleProcess.configured (Throws "EACCES"%string)
                (Sample.publishing [Sample.run 7] Sample.accepted Sample.t0))
    (reboot {| state := initialState; stateFile := Some (state (Sample.after 7)) |})))
  = [7].
Proof.
  assert (Hconf : configuredWith SampleProcess.configured).
  { intros key Hkey. simpl in Hkey.
    repeat (destruct Hkey as [<-|Hkey]; [reflexivity|]). contradiction. }
  split; [exact Hconf|].
  destruct (main_loads_then_checks_once SampleProcess.configured (Returns tt)
              (Sample.publishing [Sample.run 7] Sample.accepted Sample.t0)
              (reboot {| state := initialState; stateFile := Some (state (Sample.after 7)) |})
              Hconf) as [Hout _].
  split; [exact Hout|]. split; reflexivity.
Defined.

(** ** Stopping and starting again *)

Lemma reload_inSync (w : World) :
  inSync w ->
  state (worldOfP (loadState (Returns tt)) (reboot w)) = state w.
Proof.
  unfold inSync. intros Hsync.
  destruct (loadState_state (Returns tt) (reboot w)) as [_ [_ [Hstate _]]].
  rewrite Hstate. simpl. destruct (stateFile w); auto.
Qed.

(** The candidate of a call depends on the state in memory only. *)
Lemma candidate_by_state (env : TickEnv) (w w' : World) :
  state w = state w' ->
  valueOf (getLatestSuccessfulRun env) w = valueOf (getLatestSuccessfulRun env) w'.
Proof.
  destruct w as [s f], w' as [s' f']. simpl. intros <-.
  unfold_script. split_answers; reflexivity.
Qed.

(** * Calls in flight *)

(** ** The parts of a call *)

Ltac unfold_parts :=
  unfold step, begin, upToGuard, announce, pipeline, conclude in *; unfold_script.

(** [processNewRun] is its parts one after the other. *)
Lemma processNewRun_parts (env : TickEnv) (w : World) :
  processNewRun env w =
  (run <- upToGuard env ;;
   match run with
   | None => emit LogNoNewRuns
   | Some run =>
       announce run ;;
       stop <- pipeline env run ;;
       conclude env run stop
   end) w.
Proof.
  destruct w as [s f]. unfold_parts.
  split_answers; reflexivity.
Qed.

(** The questions of a call neither read nor change the world. *)
Lemma pipeline_pure (env : TickEnv) (run : WorkflowRun) (w w' : World) :
  worldOf (pipeline env run) w = w /\
  valueOf (pipeline env run) w = valueOf (pipeline env run) w' /\
  eventsOf (pipeline env run) w = eventsOf (pipeline env run) w'.
Proof.
  destruct w as [s f], w' as [s' f']. unfold_parts.
  split_answers; repeat split; reflexivity.
Qed.


Lemma begin_result (env : TickEnv) (w : World) :
  begin env w =
  (valueOf (getLatestSuccessfulRun env) w, w,
   match valueOf (getLatestSuccessfulRun env) w with
   | None => eventsOf (upToGuard env) w ++ [LogNoNewRuns]
   | Some run => eventsOf (upToGuard env) w ++ eventsOf (announce run) w
   end) /\
  attempts (eventsOf (begin env) w) = [].
Proof.
  destruct w as [s f]. unfold_parts.
  split_answers; split; reflexivity.
Qed.

(** What the last lines of a call do, in whatever world they run. *)
Lemma conclude_result (env : TickEnv) (run : WorkflowRun) (stop : Stop) (w : World) :
  worldOf (conclude env run stop) w =
  saved env
    match stop with
    | NoArtifact => markProcessed run (state w)
    | NoPlace => markProcessed run (state w)
    | Published b => recordAttempt env run b (state w)
    end w /\
  saves (eventsOf (conclude env run stop) w) = [state (worldOf (conclude env run stop) w)] /\
  attempts (eventsOf (conclude env run stop) w) = [].
Proof.
  destruct w as [s f]. unfold_parts.
  destruct stop as [| |[|]]; simpl; rewrite ?truncate_guard;
    destruct (writeFileSync env); simpl; repeat split; reflexivity.
Qed.

(** A call that starts with no other in flight and returns before
    anything else happens is a [tick]. *)
Lemma call_atomic (env : TickEnv) (w : World) (p : list Event) :
  step (step (mkNode w [] p None) (Begin env)) (End 0%nat) =
  mkNode (tick env w) [] (p ++ eventsOf (processNewRun env) w) None.
Proof.
  unfold tick, worldOf, eventsOf. rewrite processNewRun_parts.
  destruct w as [s f]. unfold_parts.
  split_answers; rewrite <- ?app_assoc; reflexivity.
Qed.

Lemma atomically_runTicks (envs : list TickEnv) :
  forall (w : World) (p : list Event),
    runMoves (atomically envs) (mkNode w [] p None) =
    mkNode (fst (runTicks envs w)) [] (p ++ snd (runTicks envs w)) None.
Proof.
  induction envs as [|env rest IH]; intros w p.
  - simpl. rewrite app_nil_r. reflexivity.
  - unfold runMoves in *. cbn [atomically flat_map app fold_left].
    rewrite call_atomic. fold (atomically rest). rewrite IH.
    rewrite runTicks_world_cons, runTicks_events_cons, app_assoc. reflexivity.
Qed.

Lemma sequential_calls (envs : list TickEnv) (w : World) :
  sequentially envs w =
  mkNode (fst (runTicks envs w)) [] (snd (runTicks envs w)) None.
Proof. unfold sequentially, idle. rewrite atomically_runTicks. reflexivity. Qed.

Lemma runTicks_app (a b : list TickEnv) :
  forall w : World,
    fst (runTicks (a ++ b) w) = fst (runTicks b (fst (runTicks a w))) /\
    snd (runTicks (a ++ b) w)
    = snd (runTicks a w) ++ snd (runTicks b (fst (runTicks a w))).
Proof.
  induction a as [|env a IH]; intros w; [split; reflexivity|].
  rewrite <- app_comm_cons, !runTicks_world_cons, !runTicks_events_cons.
  destruct (IH (tick env w)) as [-> ->]. rewrite app_assoc. split; reflexivity.
Qed.

Lemma runMoves_snoc (moves : list Move) (m : Move) (n : Node) :
  runMoves (moves ++ [m]) n = step (runMoves moves n) m.
Proof. unfold runMoves. rewrite fold_left_app. reflexivity. Qed.

Lemma notNewerThan_later (n m : Z) (env : TickEnv) :
  n <= m -> notNewerThan n env -> notNewerThan m env.
Proof.
  unfold notNewerThan. intros Hle.
  destruct (listWorkflowRunsForRepo env) as [e|[|r rest]]; auto. lia.
Qed.

(** ** Overlapping calls (C8) *)




(** ** A processed build (C2) *)

(** Overlapping calls both pass the guard before either has written: the
    pipeline is started twice on run #7, and it is recorded twice. *)
Example overlapping_calls_repeat_a_build :
  attempts (printed (runMoves
    [Begin (Sample.publishing [Sample.run 7] Sample.accepted Sample.t0);
     Begin (Sample.publishing [Sample.run 7] Sample.accepted Sample.t0);
     End 0%nat; End 0%nat]
    (idle Sample.fresh))) = [7; 7] /\
  map runId (deploymentHistory (state (world (runMoves
    [Begin (Sample.publishing [Sample.run 7] Sample.accepted Sample.t0);
     Begin (Sample.publishing [Sample.run 7] Sample.accepted Sample.t0);
     End 0%nat; End 0%nat]
    (idle Sample.fresh))))) = [7; 7].
Proof. split; reflexivity. Qed.

(** A negative identifier is no better than zero: after #-5 a run #0 is
    newer, and leaves a [lastProcessedRunId] that holds nothing back. *)
Example negative_run_is_attempted_again :
  attempts (printed (sequentially
    [Sample.publishing [Sample.run (-5)] Sample.accepted Sample.t0;
     Sample.publishing [Sample.run 0] Sample.accepted Sample.t0;
     Sample.publishing [Sample.run (-5)] Sample.accepted Sample.t0]
    Sample.fresh)) = [-5; 0; -5].
Proof. reflexivity. Qed.

(** C2, amended: whenever a call with a candidate returns, whatever step
    ended its attempt and whatever ran while it waited,
    [lastProcessedRunId] is the candidate's identifier, and [saveState]
    was called with that final state, which is the content of the state
    file unless the write threw.  When calls do not overlap and the
    candidate's identifier is positive, the pipeline is never started on
    that build again, whatever the later pages hold; and a later call
    whose query throws or whose page has no run newer than the candidate
    changes nothing and starts the pipeline on no run. *)
Theorem candidate_is_marked_and_saved (env : TickEnv) (run : WorkflowRun) :
  (forall (n : Node) (k : nat) (c : InFlight),
      exited n = None ->
      nth_error (inFlight n) k = Some c ->
      answers c = env -> candidate c = run ->
      lastProcessedRunId (state (world (step n (End k)))) = Some (run_id run) /\
      In (ReqWriteState (state (world (step n (End k))))) (printed (step n (End k))) /\
      (writeFileSync env = Returns tt ->
       stateFile (world (step n (End k))) = Some (state (world (step n (End k)))))) /\
  (forall (w : World) (later : list TickEnv),
      valueOf (getLatestSuccessfulRun env) w = Some run ->
      0 < run_id run ->
      exists rest,
        attempts (printed (sequentially (env :: later) w)) = run_id run :: rest /\
        ~ In (run_id run) rest) /\
  (forall (w : World) (between : list TickEnv) (env' : TickEnv),
      valueOf (getLatestSuccessfulRun env) w = Some run ->
      0 < run_id run ->
      notNewerThan (run_id run) env' ->
      world (sequentially (env :: between ++ [env']) w)
      = world (sequentially (env :: between) w) /\
      attempts (printed (sequentially (env :: between ++ [env']) w))
      = attempts (printed (sequentially (env :: between) w))).
Proof.
  split; [|split].
  - intros n k c Hrun Hk <- <-. unfold step. rewrite Hrun, Hk.
    set (stop := valueOf (pipeline (answers c) (candidate c)) (world n)).
    destruct (conclude_result (answers c) (candidate c) stop (world n))
      as [Hw [Hsaves _]].
    unfold worldOf, eventsOf in Hw, Hsaves.
    destruct (conclude (answers c) (candidate c) stop (world n)) as [[u w'] evs].
    cbn [fst snd world printed] in *.
    split; [|split].
    + rewrite Hw. destruct stop; reflexivity.
    + apply in_or_app. right. apply in_or_app. right.
      assert (Hin : In (state w') (saves evs)) by (rewrite Hsaves; left; reflexivity).
      unfold saves in Hin. apply in_flat_map in Hin as [e [He Hs]].
      destruct e; try contradiction. destruct Hs as [<-|[]]. exact He.
    + intros Hwrite. rewrite Hw. unfold saved. rewrite Hwrite. reflexivity.
  - intros w later Hcand Hpos. rewrite sequential_calls. cbn [printed].
    rewrite runTicks_events_cons, attempts_app, attempts_candidate, Hcand.
    eexists. split; [reflexivity|].
    intros Hin.
    pose proof (attempts_above later (tick env w) (run_id run)
                  (candidate_marked env w run Hcand) Hpos _ Hin).
    lia.
  - intros w between env' Hcand Hpos Hold.
    rewrite !sequential_calls. cbn [world printed].
    rewrite app_comm_cons.
    destruct (runTicks_app (env :: between) [env'] w) as [-> ->].
    set (w1 := fst (runTicks (env :: between) w)).
    assert (Hlast : exists m, lastProcessedRunId (state w1) = Some m /\ run_id run <= m).
    { unfold w1. rewrite runTicks_world_cons.
      exact (runTicks_positive_never_decreases between (tick env w) (run_id run)
               (candidate_marked env w run Hcand) Hpos). }
    destruct Hlast as [m [Hm Hle]].
    assert (Hnone : valueOf (getLatestSuccessfulRun env') w1 = None).
    { apply (stale_page_no_candidate env' w1 m Hm); [lia|].
      exact (notNewerThan_later _ _ _ Hle Hold). }
    destruct (no_candidate env' w1 Hnone) as [Htick [Hatt _]].
    rewrite (runTicks_world_cons env' [] w1), (runTicks_events_cons env' [] w1).
    rewrite !attempts_app, Htick, Hatt.
    simpl. rewrite !app_nil_r. split; reflexivity.
Qed.

Lemma candidate_is_marked_and_saved_witness :
  nth_error (inFlight (step (idle Sample.fresh)
                         (Begin (Sample.noArtifact [Sample.run 7; Sample.run 6]))))
    0%nat
  = Some {| answers := Sample.noArtifact [Sample.run 7; Sample.run 6];
            candidate := Sample.run 7;
            unprinted := [LogNoPlaceArtifact] |} /\
  valueOf (getLatestSuccessfulRun (Sample.noArtifact [Sample.run 7; Sample.run 6]))
    Sample.fresh = Some (Sample.run 7) /\
  0 < run_id (Sample.run 7) /\
  notNewerThan (run_id (Sample.run 7))
    (Sample.publishing [Sample.run 7] Sample.accepted Sample.t0) /\
  lastProcessedRunId (state (world
    (step (step (idle Sample.fresh)
             (Begin (Sample.noArtifact [Sample.run 7; Sample.run 6])))
       (End 0%nat)))) = Some 7 /\
  stateFile (world
    (step (step (idle Sample.fresh)
             (Begin (Sample.noArtifact [Sample.run 7; Sample.run 6])))
       (End 0%nat)))
  = Some (state (world
    (step (step (idle Sample.fresh)
             (Begin (Sample.noArtifact [Sample.run 7; Sample.run 6])))
       (End 0%nat)))) /\
  (exists rest,
     attempts (printed (sequentially
       [Sample.noArtifact [Sample.run 7; Sample.run 6];
        Sample.publishing [Sample.run 8] Sample.accepted Sample.t0;
        Sample.publishing [Sample.run 7] Sample.accepted Sample.t0]
       Sample.fresh)) = 7 :: rest /\ ~ In 7 rest) /\
  attempts (printed (sequentially
    ([Sample.noArtifact [Sample.run 7; Sample.run 6];
      Sample.publishing [Sample.run 8] Sample.accepted Sample.t0] ++
     [Sample.publishing [Sample.run 7] Sample.accepted Sample.t0])
    Sample.fresh))
  = attempts (printed (sequentially
    [Sample.noArtifact [Sample.run 7; Sample.run 6];
     Sample.publishing [Sample.run 8] Sample.accepted Sample.t0]
    Sample.fresh)).
Proof.
  assert (Hpos : 0 < run_id (Sample.run 7)) by (simpl; lia).
  assert (Hold : notNewerThan (run_id (Sample.run 7))
                   (Sample.publishing [Sample.run 7] Sample.accepted Sample.t0))
    by (unfold notNewerThan; simpl; lia).
  destruct (candidate_is_marked_and_saved
              (Sample.noArtifact [Sample.run 7; Sample.run 6]) (Sample.run 7))
    as [Hreturn [Hnever Hstale]].
  split; [reflexivity|]. split; [reflexivity|]. split; [exact Hpos|].
  split; [exact Hold|].
  destruct (Hreturn (step (idle Sample.fresh)
                       (Begin (Sample.noArtifact [Sample.run 7; Sample.run 6])))
              0%nat _ eq_refl eq_refl eq_refl eq_refl) as [Hmark [_ Hfile]].
  split; [exact Hmark|]. split; [exact (Hfile eq_refl)|].
  split.
  - exact (Hnever Sample.fresh
             [Sample.publishing [Sample.run 8] Sample.accepted Sample.t0;
              Sample.publishing [Sample.run 7] Sample.accepted Sample.t0]
             eq_refl Hpos).
  - exact (proj2 (Hstale Sample.fresh
             [Sample.publishing [Sample.run 8] Sample.accepted Sample.t0]
             (Sample.publishing [Sample.run 7] Sample.accepted Sample.t0)
             eq_refl Hpos Hold)).
Defined.

(** ** What is published *)

(** X4: whatever a call sends to Roblox is the buffer its
    [extractPlaceFile] returned for the buffer its [downloadArtifact]
    returned for the call's candidate, and it is sent once.  (What
    [extractPlaceFile] returns is what it reads from [./temp/place.rbxl]
    after unpacking, an answer of the outside here.) *)
Theorem published_place_comes_from_the_candidate (env : TickEnv) (w : World)
    (place : Buffer) :
  In place (publishes (eventsOf (processNewRun env) w)) ->
  exists run zip,
    valueOf (getLatestSuccessfulRun env) w = Some run /\
    valueOf (downloadArtifact env (run_id run)) w = Some zip /\
    valueOf (extractPlaceFile env zip) w = Some place /\
    publishes (eventsOf (processNewRun env) w) = [place].
Proof.
  destruct w as [s f]. unfold_script.
  split_answers; intros H; try contradiction;
    destruct H as [<-|[]]; eexists; eexists;
    (split; [reflexivity|]);
    (split; [|split; [|reflexivity]]);
    repeat (match goal with
            | E : ?x = Returns _ |- context [?x] => rewrite E
            | E : find _ _ = Some _ |- _ => rewrite E
            end; simpl);
    try reflexivity.
  all: match goal with
       | E : unzipPlace _ _ = Returns _ |- _ => rewrite E
       end; reflexivity.
Qed.

Lemma published_place_comes_from_the_candidate_witness :
  In Sample.place
     (publishes (eventsOf (processNewRun
        (Sample.publishing [Sample.run 7] Sample.accepted Sample.t0)) Sample.fresh)) /\
  exists run zip,
    valueOf (getLatestSuccessfulRun
               (Sample.publishing [Sample.run 7] Sample.accepted Sample.t0)) Sample.fresh
    = Some run /\
    valueOf (downloadArtifact
               (Sample.publishing [Sample.run 7] Sample.accepted Sample.t0) (run_id run))
      Sample.fresh = Some zip /\
    valueOf (extractPlaceFile
               (Sample.publishing [Sample.run 7] Sample.accepted Sample.t0) zip)
      Sample.fresh = Some Sample.place /\
    publishes (eventsOf (processNewRun
        (Sample.publishing [Sample.run 7] Sample.accepted Sample.t0)) Sample.fresh)
    = [Sample.place].
Proof.
  assert (Hin : In Sample.place
     (publishes (eventsOf (processNewRun
        (Sample.publishing [Sample.run 7] Sample.accepted Sample.t0)) Sample.fresh)))
    by (simpl; left; reflexivity).
  split; [exact Hin|].
  exact (published_place_comes_from_the_candidate _ _ _ Hin).
Defined.

(** ** Calls that do not overlap *)

(** X5: when calls do not overlap, against pages of runs with positive
    identifiers and from whatever state, the runs on which the pipeline
    is started have strictly increasing identifiers: no build is attempted
    twice.  (Overlapping calls can attempt one build twice:
    [overlapping_calls_repeat_a_build].) *)
Theorem no_build_is_attempted_twice (envs : list TickEnv) (w : World) :
  Forall positiveIds envs ->
  StronglySorted Z.lt (attempts (printed (sequentially envs w))) /\
  NoDup (attempts (printed (sequentially envs w))).
Proof.
  intros Hall. rewrite sequential_calls. cbn [printed].
  pose proof (attempts_sorted envs w Hall) as Hsorted.
  split; [exact Hsorted|].
  induction Hsorted as [|x l _ IH Hx]; constructor; [|exact IH].
  intros Hin. rewrite Forall_forall in Hx. specialize (Hx x Hin). lia.
Qed.

Lemma no_build_is_attempted_twice_witness :
  Forall positiveIds
    [Sample.publishing [Sample.run 4] Sample.accepted Sample.t0;
     Sample.publishing [Sample.run 4] Sample.accepted Sample.t0;
     Sample.noArtifact [Sample.run 6; Sample.run 5];
     Sample.publishing [Sample.run 5] Sample.accepted Sample.t0] /\
  attempts (printed (sequentially
    [Sample.publishing [Sample.run 4] Sample.accepted Sample.t0;
     Sample.publishing [Sample.run 4] Sample.accepted Sample.t0;
     Sample.noArtifact [Sample.run 6; Sample.run 5];
     Sample.publishing [Sample.run 5] Sample.accepted Sample.t0]
    (Sample.after 0))) = [4; 6] /\
  NoDup (attempts (printed (sequentially
    [Sample.publishing [Sample.run 4] Sample.accepted Sample.t0;
     Sample.publishing [Sample.run 4] Sample.accepted Sample.t0;
     Sample.noArtifact [Sample.run 6; Sample.run 5];
     Sample.publishing [Sample.run 5] Sample.accepted Sample.t0]
    (Sample.after 0)))).
Proof.
  assert (Hall : Forall positiveIds
    [Sample.publishing [Sample.run 4] Sample.accepted Sample.t0;
     Sample.publishing [Sample.run 4] Sample.accepted Sample.t0;
     Sample.noArtifact [Sample.run 6; Sample.run 5];
     Sample.publishing [Sample.run 5] Sample.accepted Sample.t0])
    by (repeat constructor; simpl; lia).
  split; [exact Hall|]. split; [reflexivity|].
  exact (proj2 (no_build_is_attempted_twice _ (Sample.after 0) Hall)).
Defined.

(** X6: when calls do not overlap, a positive [lastProcessedRunId] never
    decreases, whatever the pages of runs hold: identifiers that are
    zero, negative or out of order included. *)
Theorem positive_last_id_never_decreases (envs : list TickEnv) (w : World) (n : Z) :
  lastProcessedRunId (state w) = Some n ->
  0 < n ->
  exists m,
    lastProcessedRunId (state (world (sequentially envs w))) = Some m /\ n <= m.
Proof.
  intros Hlast Hpos. rewrite sequential_calls.
  exact (runTicks_positive_never_decreases envs w n Hlast Hpos).
Qed.

Lemma positive_last_id_never_decreases_witness :
  lastProcessedRunId (state (Sample.after 10)) = Some 10 /\
  0 < 10 /\
  exists m,
    lastProcessedRunId (state (world (sequentially
      [Sample.publishing [Sample.run 0] Sample.accepted Sample.t0;
       Sample.noArtifact [Sample.run (-2)];
       Sample.publishing [Sample.run 12; Sample.run 30] Sample.accepted Sample.t0]
      (Sample.after 10)))) = Some m /\ 10 <= m.
Proof.
  split; [reflexivity|]. split; [lia|].
  apply (positive_last_id_never_decreases _ (Sample.after 10) 10); [reflexivity|lia].
Defined.

(** X9: when calls do not overlap, against pages of runs with positive
    identifiers, the history stays in strictly increasing order of run
    and at or below [lastProcessedRunId], when it started so (the initial
    state does): no build has two history entries.  (Overlapping calls
    can record one build twice: [overlapping_calls_repeat_a_build].) *)
Theorem no_build_is_recorded_twice (envs : list TickEnv) (w : World) :
  Forall positiveIds envs ->
  orderedHistory (state w) ->
  orderedHistory (state (world (sequentially envs w))) /\
  NoDup (map runId (deploymentHistory (state (world (sequentially envs w))))).
Proof.
  intros Hall H0. rewrite sequential_calls. cbn [world].
  exact (runTicks_ordered envs w Hall H0).
Qed.

Lemma no_build_is_recorded_twice_witness :
  Forall positiveIds
    [Sample.publishing [Sample.run 4] Sample.accepted Sample.t0;
     Sample.publishing [Sample.run 4] Sample.accepted Sample.t0;
     Sample.publishing [Sample.run 6; Sample.run 5] (Sample.rejected "denied") Sample.t0] /\
  orderedHistory (state Sample.fresh) /\
  map runId (deploymentHistory (state (world (sequentially
    [Sample.publishing [Sample.run 4] Sample.accepted Sample.t0;
     Sample.publishing [Sample.run 4] Sample.accepted Sample.t0;
     Sample.publishing [Sample.run 6; Sample.run 5] (Sample.rejected "denied") Sample.t0]
    Sample.fresh)))) = [4; 6] /\
  NoDup (map runId (deploymentHistory (state (world (sequentially
    [Sample.publishing [Sample.run 4] Sample.accepted Sample.t0;
     Sample.publishing [Sample.run 4] Sample.accepted Sample.t0;
     Sample.publishing [Sample.run 6; Sample.run 5] (Sample.rejected "denied") Sample.t0]
    Sample.fresh))))).
Proof.
  assert (Hall : Forall positiveIds
    [Sample.publishing [Sample.run 4] Sample.accepted Sample.t0;
     Sample.publishing [Sample.run 4] Sample.accepted Sample.t0;
     Sample.publishing [Sample.run 6; Sample.run 5] (Sample.rejected "denied") Sample.t0])
    by (repeat constructor; simpl; lia).
  assert (H0 : orderedHistory (state Sample.fresh)) by (split; constructor).
  split; [exact Hall|]. split; [exact H0|]. split; [reflexivity|].
  exact (proj2 (no_build_is_recorded_twice _ Sample.fresh Hall H0)).
Defined.

(** ** The state file over calls in flight *)

Lemma Forall_firstn_keep {A} (Q : A -> Prop) (k : nat) :
  forall l, Forall Q l -> Forall Q (firstn k l).
Proof.
  induction k as [|k IH]; intros l Hl; [constructor|].
  destruct l as [|x l]; [constructor|].
  simpl. constructor; [exact (Forall_inv Hl)|apply IH; exact (Forall_inv_tail Hl)].
Qed.

Lemma onSignal_saves (env : TickEnv) (w : World) :
  onSignal env w =
  (Exits 0, saved env (state w) w,
   LogShuttingDown :: map Script (eventsOf (saveState env) w) ++ [Exit 0]) /\
  attempts (eventsOf (saveState env) w) = [].
Proof.
  destruct w as [s f].
  unfold onSignal, bindP, say, exit, script, eventsOf, saveState, bind, emit,
    getState, writeStateFile, saved.
  destruct (writeFileSync env); split; reflexivity.
Qed.

Lemma step_settled (n : Node) (m : Move) :
  writesSucceed m -> settled n -> settled (step n m).
Proof.
  intros Hm [Hsync Hall]. unfold step.
  destruct (exited n); [split; assumption|].
  destruct m as [env|k lines|k|env]; simpl in Hm.
  - destruct (begin_result env (world n)) as [-> _].
    destruct (valueOf (getLatestSuccessfulRun env) (world n)) as [run|];
      split; simpl; auto.
    apply Forall_app. split; [exact Hall|]. constructor; [exact Hm|constructor].
  - destruct (nth_error (inFlight n) k) as [c|] eqn:Hk; [|split; assumption].
    split; [exact Hsync|]. simpl. unfold replaceAt.
    apply Forall_app. split; [apply Forall_firstn_keep; exact Hall|].
    constructor; [|apply Forall_skipn_keep; exact Hall].
    simpl. rewrite Forall_forall in Hall. apply Hall.
    exact (nth_error_In _ _ Hk).
  - destruct (nth_error (inFlight n) k) as [c|] eqn:Hk; [|split; assumption].
    assert (Hc : writeFileSync (answers c) = Returns tt).
    { rewrite Forall_forall in Hall. apply Hall. exact (nth_error_In _ _ Hk). }
    set (stop := valueOf (pipeline (answers c) (candidate c)) (world n)).
    destruct (conclude_result (answers c) (candidate c) stop (world n)) as [Hw _].
    unfold worldOf in Hw.
    destruct (conclude (answers c) (candidate c) stop (world n)) as [[u w'] evs].
    cbn [fst snd] in Hw. subst w'. split; simpl.
    + unfold inSync, saved. rewrite Hc. reflexivity.
    + unfold dropAt. apply Forall_app.
      split; [apply Forall_firstn_keep|apply Forall_skipn_keep]; exact Hall.
  - destruct (onSignal_saves env (world n)) as [-> _].
    split; simpl; [|constructor].
    unfold inSync, saved. rewrite Hm. reflexivity.
Qed.

(** X14: starting with the state file and the state in agreement (the file
    holds the state, or there is no file and the state is the initial
    one), and as long as every write of the state file succeeds, they
    agree again after every step of the process, however the calls
    overlap and whenever a signal arrives: a process started on the file
    takes up exactly the state that was in memory. *)
Theorem state_file_follows_state (moves : list Move) (w : World) :
  Forall writesSucceed moves ->
  inSync w ->
  inSync (world (runMoves moves (idle w))) /\
  state (worldOfP (loadState (Returns tt)) (reboot (world (runMoves moves (idle w)))))
  = state (world (runMoves moves (idle w))).
Proof.
  intros Hall Hsync.
  assert (H : settled (runMoves moves (idle w))).
  { assert (H0 : settled (idle w)) by (split; [exact Hsync|constructor]).
    revert H0. generalize (idle w) as n. unfold runMoves.
    induction Hall as [|m rest Hm _ IH]; intros n Hn; [exact Hn|].
    simpl. apply IH. apply step_settled; assumption. }
  destruct H as [H _]. split; [exact H|apply reload_inSync; exact H].
Qed.

Lemma state_file_follows_state_witness :
  Forall writesSucceed
    [Begin (Sample.publishing [Sample.run 3] Sample.accepted Sample.t0);
     Begin (Sample.noArtifact [Sample.run 4]);
     End 1%nat; End 0%nat] /\
  inSync Sample.fresh /\
  state (worldOfP (loadState (Returns tt)) (reboot (world (runMoves
    [Begin (Sample.publishing [Sample.run 3] Sample.accepted Sample.t0);
     Begin (Sample.noArtifact [Sample.run 4]);
     End 1%nat; End 0%nat] (idle Sample.fresh)))))
  = state (world (runMoves
    [Begin (Sample.publishing [Sample.run 3] Sample.accepted Sample.t0);
     Begin (Sample.noArtifact [Sample.run 4]);
     End 1%nat; End 0%nat] (idle Sample.fresh))) /\
  lastProcessedRunId (state (worldOfP (loadState (Returns tt)) (reboot (world (runMoves
    [Begin (Sample.publishing [Sample.run 3] Sample.accepted Sample.t0);
     Begin (Sample.noArtifact [Sample.run 4]);
     End 1%nat; End 0%nat] (idle Sample.fresh)))))) = Some 3.
Proof.
  assert (Hall : Forall writesSucceed
    [Begin (Sample.publishing [Sample.run 3] Sample.accepted Sample.t0);
     Begin (Sample.noArtifact [Sample.run 4]);
     End 1%nat; End 0%nat]) by (repeat constructor).
  assert (H0 : inSync Sample.fresh) by reflexivity.
  split; [exact Hall|]. split; [exact H0|].
  split; [exact (proj2 (state_file_follows_state _ Sample.fresh Hall H0))|reflexivity].
Defined.

(** X15: when the write of the state file throws in a call that runs
    alone and has a candidate, the error is printed and the build is
    marked as processed in memory only.  A process started afterwards,
    whether it reads back what the file held before the call, cannot read
    a file the failed write cut short, or finds no file, makes the same
    build the candidate again on the same page of runs. *)
Theorem lost_write_repeats_the_build (env : TickEnv) (w : World)
    (run : WorkflowRun) (e : string) (readParse : Response unit) :
  inSync w ->
  valueOf (getLatestSuccessfulRun env) w = Some run ->
  writeFileSync env = Throws e ->
  lastProcessedRunId (state (tick env w)) = Some (run_id run) /\
  In (ErrSavingState e) (eventsOf (processNewRun env) w) /\
  valueOf (getLatestSuccessfulRun env)
    (worldOfP (loadState readParse) (reboot (tick env w))) = Some run.
Proof.
  intros Hsync Hcand Hwrite.
  split; [exact (candidate_marked env w run Hcand)|]. split.
  - clear Hsync. destruct w as [s f]. revert Hcand. unfold_script.
    rewrite Hwrite. split_answers; intros H; try discriminate; simpl; auto 30.
  - assert (Hfile : stateFile (tick env w) = stateFile w).
    { rewrite tick_by_step. destruct (stepOf env w); try reflexivity;
        unfold saved; rewrite Hwrite; reflexivity. }
    destruct (loadState_state readParse (reboot (tick env w))) as [_ [_ [Hstate _]]].
    simpl in Hstate. rewrite Hfile in Hstate.
    assert (Hcases : state (worldOfP (loadState readParse) (reboot (tick env w))) = state w \/
                     state (worldOfP (loadState readParse) (reboot (tick env w)))
                     = initialState).
    { rewrite Hstate. unfold inSync in Hsync.
      destruct (stateFile w) as [s0|]; [destruct readParse|]; subst; auto. }
    destruct Hcases as [Hsame|Hinit].
    + rewrite (candidate_by_state env _ w Hsame). exact Hcand.
    + destruct (candidate_passed_guard env w run Hcand) as [[rest Hruns] _].
      generalize dependent (worldOfP (loadState readParse) (reboot (tick env w))).
      intros w2 _ Hinit. destruct w2 as [s2 f2]. simpl in Hinit. subst s2.
      unfold_script. simpl. rewrite Hruns. reflexivity.
Qed.

Lemma lost_write_repeats_the_build_witness :
  inSync Sample.fresh /\
  writeFileSync (SampleProcess.readOnlyDisk [Sample.run 7]) = Throws "EROFS"%string /\
  lastProcessedRunId (state (tick (SampleProcess.readOnlyDisk [Sample.run 7]) Sample.fresh))
  = Some 7 /\
  valueOf (getLatestSuccessfulRun (SampleProcess.readOnlyDisk [Sample.run 7]))
    (worldOfP (loadState (Throws "Unexpected end of JSON input"%string))
       (reboot (tick (SampleProcess.readOnlyDisk [Sample.run 7]) Sample.fresh)))
  = Some (Sample.run 7).
Proof.
  assert (H0 : inSync Sample.fresh) by reflexivity.
  split; [exact H0|]. split; [reflexivity|].
  destruct (lost_write_repeats_the_build (SampleProcess.readOnlyDisk [Sample.run 7])
              Sample.fresh (Sample.run 7) "EROFS"%string
              (Throws "Unexpected end of JSON input"%string) H0 eq_refl eq_refl)
    as [Hmark [_ Hagain]].
  split; [exact Hmark|exact Hagain].
Defined.

(** ** Signals *)

(** X16: when calls do not overlap and the signal arrives while no call
    is in flight, the handler ends the process with code 0 and, its write
    succeeding, leaves a state file that holds the state, whatever
    happened to earlier writes; the process started next on that file,
    its calls not overlapping either and the run identifiers being
    positive, starts the pipeline on newer builds only: over both lives
    the attempted builds have strictly increasing identifiers. *)
Theorem restart_after_signal_never_repeats
    (envs envs' : list TickEnv) (last : TickEnv) (w : World) :
  writeFileSync last = Returns tt ->
  Forall positiveIds envs ->
  Forall positiveIds envs' ->
  exited (runMoves (atomically envs ++ [Signal last]) (idle w)) = Some 0 /\
  inSync (world (runMoves (atomically envs ++ [Signal last]) (idle w))) /\
  StronglySorted Z.lt
    (attempts (printed (runMoves (atomically envs ++ [Signal last]) (idle w))) ++
     attempts (printed (sequentially envs'
       (worldOfP (loadState (Returns tt))
          (reboot (world (runMoves (atomically envs ++ [Signal last]) (idle w)))))))).
Proof.
  intros Hwrite Hpos Hpos'.
  rewrite runMoves_snoc. fold (sequentially envs w). rewrite sequential_calls.
  set (wT := fst (runTicks envs w)).
  unfold step. cbn [exited world printed inFlight].
  destruct (onSignal_saves last wT) as [-> Hquiet]. cbn [world printed exited].
  assert (Hsync : inSync (saved last (state wT) wT))
    by (unfold inSync, saved; rewrite Hwrite; reflexivity).
  split; [reflexivity|]. split; [exact Hsync|].
  set (w2 := worldOfP (loadState (Returns tt)) (reboot (saved last (state wT) wT))).
  assert (Hstate2 : state w2 = state wT) by (unfold w2; rewrite (reload_inSync _ Hsync); reflexivity).
  rewrite sequential_calls. cbn [printed].
  assert (Hatt : attempts (scriptEvents
                   (LogShuttingDown :: map Script (eventsOf (saveState last) wT) ++ [Exit 0]))
                 = []).
  { change (LogShuttingDown :: map Script (eventsOf (saveState last) wT) ++ [Exit 0])
      with ([LogShuttingDown] ++ map Script (eventsOf (saveState last) wT) ++ [Exit 0]).
    rewrite !scriptEvents_app, scriptEvents_map. simpl. rewrite app_nil_r. exact Hquiet. }
  rewrite attempts_app, Hatt, app_nil_r.
  apply StronglySorted_lt_app.
  - apply attempts_sorted. exact Hpos.
  - apply attempts_sorted. exact Hpos'.
  - intros i j Hi Hj.
    destruct (attempts_below envs w Hpos i Hi) as [Hgt [m [Hm Hle]]].
    fold wT in Hm. rewrite <- Hstate2 in Hm.
    pose proof (attempts_above envs' w2 m Hm ltac:(lia) j Hj).
    lia.
Qed.

Lemma restart_after_signal_never_repeats_witness :
  writeFileSync (Sample.publishing [] Sample.accepted Sample.t0) = Returns tt /\
  exited (runMoves
    (atomically [SampleProcess.readOnlyDisk [Sample.run 7];
                 SampleProcess.readOnlyDisk [Sample.run 8; Sample.run 7]] ++
     [Signal (Sample.publishing [] Sample.accepted Sample.t0)])
    (idle Sample.fresh)) = Some 0 /\
  attempts (printed (runMoves
    (atomically [SampleProcess.readOnlyDisk [Sample.run 7];
                 SampleProcess.readOnlyDisk [Sample.run 8; Sample.run 7]] ++
     [Signal (Sample.publishing [] Sample.accepted Sample.t0)])
    (idle Sample.fresh))) = [7; 8] /\
  attempts (printed (sequentially
    [Sample.publishing [Sample.run 8; Sample.run 7] Sample.accepted Sample.t0;
     Sample.publishing [Sample.run 9; Sample.run 8] Sample.accepted Sample.t0]
    (worldOfP (loadState (Returns tt))
       (reboot (world (runMoves
          (atomically [SampleProcess.readOnlyDisk [Sample.run 7];
                       SampleProcess.readOnlyDisk [Sample.run 8; Sample.run 7]] ++
           [Signal (Sample.publishing [] Sample.accepted Sample.t0)])
          (idle Sample.fresh))))))) = [9] /\
  StronglySorted Z.lt
    (attempts (printed (runMoves
       (atomically [SampleProcess.readOnlyDisk [Sample.run 7];
                    SampleProcess.readOnlyDisk [Sample.run 8; Sample.run 7]] ++
        [Signal (Sample.publishing [] Sample.accepted Sample.t0)])
       (idle Sample.fresh))) ++
     attempts (printed (sequentially
       [Sample.publishing [Sample.run 8; Sample.run 7] Sample.accepted Sample.t0;
        Sample.publishing [Sample.run 9; Sample.run 8] Sample.accepted Sample.t0]
       (worldOfP (loadState (Returns tt))
          (reboot (world (runMoves
             (atomically [SampleProcess.readOnlyDisk [Sample.run 7];
                          SampleProcess.readOnlyDisk [Sample.run 8; Sample.run 7]] ++
              [Signal (Sample.publishing [] Sample.accepted Sample.t0)])
             (idle Sample.fresh)))))))).
Proof.
  assert (Hpos : Forall positiveIds
            [SampleProcess.readOnlyDisk [Sample.run 7];
             SampleProcess.readOnlyDisk [Sample.run 8; Sample.run 7]])
    by (repeat constructor; simpl; lia).
  assert (Hpos' : Forall positiveIds
            [Sample.publishing [Sample.run 8; Sample.run 7] Sample.accepted Sample.t0;
             Sample.publishing [Sample.run 9; Sample.run 8] Sample.accepted Sample.t0])
    by (repeat constructor; simpl; lia).
  split; [reflexivity|].
  destruct (restart_after_signal_never_repeats _ _
              (Sample.publishing [] Sample.accepted Sample.t0)
              Sample.fresh eq_refl Hpos Hpos') as [Hexit [_ Hsorted]].
  split; [exact Hexit|]. split; [reflexivity|]. split; [reflexivity|].
  exact Hsorted.
Defined.



